(** * Whisper JNI bridge ([whisper_jni.cpp]): context lifecycle and transcription

    A shallow embedding of the three native entry points of
    [app/src/main/cpp/whisper_jni.cpp]

      - [initWhisper]      (load a model, hand out a handle),
      - [transcribeAudio]  (run one blocking inference, join the segments),
      - [freeWhisper]      (release the context),

    together with the properties the design document states about them.

    The bridge talks to two collaborators whose code is not part of the
    repository: the Java runtime (through [JNIEnv]) and the whisper inference
    library (through [whisper.h]).  Both are taken as records of oracles; every
    theorem holds for every choice of oracles. *)

From stdpp Require Import gmap strings list.
From Stdlib Require Import ZArith Lia.

Local Open Scope Z_scope.

(** ** Data as the bridge sees it *)

(** [jlong], [jint], [jsize] and C [int] values. *)
Definition jlong := Z.
Definition jint := Z.

(** A [jfloat] sample is carried as its IEEE-754 bit pattern; the bridge never
    computes with samples, it only passes them on. *)
Definition jfloat := Z.

(** A [whisper_context *] is carried as the integer that
    [reinterpret_cast<jlong>] makes of it; [nullptr] is [0].  Both casts of
    the source are the identity on that integer. *)
Definition ctx_ptr := Z.
Definition nullptr : ctx_ptr := 0.
Definition jlong_of_ptr (p : ctx_ptr) : jlong := p.
Definition ptr_of_jlong (h : jlong) : ctx_ptr := h.

(** A Java reference to a [float[]]: a key into the Java heap. *)
Definition jfloatArray := Z.

(** A [jstring] argument: a Java string, seen through its characters.  A
    [jstring] result and a [const char *] result are an [option string], with
    [None] for [nullptr]; the characters of a C string contain no NUL. *)
Definition jstring := string.

(** Release modes of [ReleaseFloatArrayElements] ([jni.h]). *)
Definition JNI_COMMIT : jint := 1.
Definition JNI_ABORT : jint := 2.

(** [enum whisper_sampling_strategy] *)
Inductive whisper_sampling_strategy :=
| WHISPER_SAMPLING_GREEDY
| WHISPER_SAMPLING_BEAM_SEARCH.

(** The members of [struct whisper_full_params] that the bridge requests or
    assigns.  The members it never touches keep whatever
    [whisper_full_default_params] put there and play no part below. *)
Record whisper_full_params := {
  strategy : whisper_sampling_strategy;
  n_threads : Z;
  offset_ms : Z;
  duration_ms : Z;
  translate : bool;
  print_special : bool;
  print_progress : bool;
  print_realtime : bool;
  print_timestamps : bool;
  language : string
}.

(** Android log priorities used by [LOGD] and [LOGE]. *)
Inductive log_priority := ANDROID_LOG_DEBUG | ANDROID_LOG_ERROR.

(** One [__android_log_print] call: priority, tag, format string, arguments. *)
Inductive log_arg := ArgStr (s : string) | ArgInt (z : Z).
Definition log_entry : Type := log_priority * string * string * list log_arg.

Definition LOG_TAG : string := "WhisperJNI".

(** ** The collaborators *)

(** The whisper library.  Its context type is opaque; the functions of
    [whisper.h] that only compute on a context are oracles over it. *)
Record Whisper := {
  whisper_context : Type;
  whisper_context_params : Type;
  whisper_context_default_params : whisper_context_params;
  whisper_full_default_params : whisper_sampling_strategy -> whisper_full_params;
  (** outcome of loading a model file, given the contexts already allocated:
      the address and initial content of the new context, or failure *)
  load_model :
    gmap Z whisper_context -> string -> whisper_context_params ->
    option (positive * whisper_context);
  (** one inference run: status code and the context afterwards; the samples
      are [const] *)
  run_full :
    whisper_context -> whisper_full_params -> list jfloat -> Z ->
    Z * whisper_context;
  n_segments_of : whisper_context -> Z;
  segment_text_of : whisper_context -> Z -> option string
}.

(** The Java runtime: whether it can hand out the characters of a string or
    the elements of an array (both can fail, and the bridge checks both). *)
Record JNIEnv := {
  string_chars_obtainable : string -> bool;
  float_elements_obtainable : jfloatArray -> list jfloat -> bool
}.

(** Calls into the whisper library that allocate, run or free a context, in
    the order they were made. *)
Inductive whisper_call :=
| CallInit (path : string)
| CallFull (ctx : ctx_ptr) (params : whisper_full_params)
           (samples : list jfloat) (n_samples : Z)
| CallFree (ctx : ctx_ptr).

Section Bridge.

Variable W : Whisper.
Variable env : JNIEnv.

(** ** Program state *)

Record State := {
  (** live whisper contexts by address *)
  contexts : gmap Z (whisper_context W);
  (** Java heap: the [float[]] objects by reference *)
  jarrays : gmap Z (list jfloat);
  (** native buffers obtained from the runtime and not yet released *)
  pinned : nat;
  (** logcat output, oldest first *)
  logcat : list log_entry;
  (** whisper calls, oldest first *)
  calls : list whisper_call
}.

Definition set_contexts (f : gmap Z (whisper_context W) -> gmap Z (whisper_context W))
    (s : State) : State :=
  {| contexts := f (contexts s); jarrays := jarrays s; pinned := pinned s;
     logcat := logcat s; calls := calls s |}.

Definition set_jarrays (f : gmap Z (list jfloat) -> gmap Z (list jfloat))
    (s : State) : State :=
  {| contexts := contexts s; jarrays := f (jarrays s); pinned := pinned s;
     logcat := logcat s; calls := calls s |}.

Definition set_pinned (f : nat -> nat) (s : State) : State :=
  {| contexts := contexts s; jarrays := jarrays s; pinned := f (pinned s);
     logcat := logcat s; calls := calls s |}.

Definition add_log (e : log_entry) (s : State) : State :=
  {| contexts := contexts s; jarrays := jarrays s; pinned := pinned s;
     logcat := logcat s ++ [e]; calls := calls s |}.

Definition add_call (c : whisper_call) (s : State) : State :=
  {| contexts := contexts s; jarrays := jarrays s; pinned := pinned s;
     logcat := logcat s; calls := calls s ++ [c] |}.

(** ** A state monad with undefined behaviour *)

(** A native call either returns a value in a new state, or has undefined
    behaviour (a dangling context pointer, an invalid Java reference). *)
Inductive outcome (A : Type) :=
| Returns (a : A) (s : State)
| Undefined.
Arguments Returns {A} a s.
Arguments Undefined {A}.

Definition M (A : Type) : Type := State -> outcome A.

Definition ret {A} (a : A) : M A := fun s => Returns a s.

Definition bind {A B} (m : M A) (k : A -> M B) : M B :=
  fun s => match m s with
           | Returns a s' => k a s'
           | Undefined => Undefined
           end.

Definition modify (f : State -> State) : M unit := fun s => Returns tt (f s).

Notation "'let*' x ':=' m 'in' k" := (bind m (fun x => k))
  (at level 10, x name, m at level 100, k at level 200, only parsing).
Notation "m ';;;' k" := (bind m (fun _ => k))
  (at level 100, k at level 200, right associativity, only parsing).

(** What a caller observes of a call. *)
Definition returned {A} (o : outcome A) : option A :=
  match o with
  | Returns a _ => Some a
  | Undefined => None
  end.

Definition defined {A} (o : outcome A) : bool :=
  match o with
  | Returns _ _ => true
  | Undefined => false
  end.

(** ** Logging *)

Definition LOGD (fmt : string) (args : list log_arg) : M unit :=
  modify (add_log (ANDROID_LOG_DEBUG, LOG_TAG, fmt, args)).

Definition LOGE (fmt : string) (args : list log_arg) : M unit :=
  modify (add_log (ANDROID_LOG_ERROR, LOG_TAG, fmt, args)).

(** ** The JNI functions the bridge calls *)

(** [env->GetStringUTFChars(str, nullptr)]: the characters, or [NULL] when
    the runtime cannot provide them. *)
Definition GetStringUTFChars (str : jstring) : M (option string) :=
  if string_chars_obtainable env str
  then modify (set_pinned S) ;;; ret (Some str)
  else ret None.

(** [env->ReleaseStringUTFChars(str, chars)] *)
Definition ReleaseStringUTFChars (str : jstring) (chars : string) : M unit :=
  modify (set_pinned Nat.pred).

(** [env->GetFloatArrayElements(array, nullptr)]: a native buffer holding the
    elements, or [NULL]. *)
Definition GetFloatArrayElements (array : jfloatArray) : M (option (list jfloat)) :=
  fun s =>
    match jarrays s !! array with
    | None => Undefined
    | Some elems =>
        if float_elements_obtainable env array elems
        then Returns (Some elems) (set_pinned S s)
        else Returns None s
    end.

(** [env->GetArrayLength(array)] *)
Definition GetArrayLength (array : jfloatArray) : M Z :=
  fun s =>
    match jarrays s !! array with
    | None => Undefined
    | Some elems => Returns (Z.of_nat (length elems)) s
    end.

(** [env->ReleaseFloatArrayElements(array, elems, mode)]: mode [0] copies the
    buffer back and frees it, [JNI_COMMIT] copies back without freeing,
    [JNI_ABORT] frees without copying back. *)
Definition ReleaseFloatArrayElements
    (array : jfloatArray) (elems : list jfloat) (mode : jint) : M unit :=
  fun s =>
    match jarrays s !! array with
    | None => Undefined
    | Some _ =>
        if mode =? JNI_ABORT then Returns tt (set_pinned Nat.pred s)
        else if mode =? JNI_COMMIT then
          Returns tt (set_jarrays <[array := elems]> s)
        else if mode =? 0 then
          Returns tt (set_pinned Nat.pred (set_jarrays <[array := elems]> s))
        else Undefined
    end.

(** [env->NewStringUTF(bytes)]: the new Java string.  Exhaustion of the Java
    heap is outside the model, as is exhaustion of the C++ heap for
    [std::string]. *)
Definition NewStringUTF (bytes : string) : M (option jstring) := ret (Some bytes).

(** ** The whisper functions the bridge calls *)

(** [whisper_init_from_file_with_params(path, cparams)] *)
Definition whisper_init_from_file_with_params
    (path : string) (cparams : whisper_context_params W) : M ctx_ptr :=
  fun s =>
    match load_model W (contexts s) path cparams with
    | Some (addr, c) =>
        Returns (Z.pos addr)
          (add_call (CallInit path) (set_contexts <[Z.pos addr := c]> s))
    | None => Returns nullptr (add_call (CallInit path) s)
    end.

(** [whisper_full(ctx, params, samples, n_samples)] *)
Definition whisper_full (ctx : ctx_ptr) (params : whisper_full_params)
    (samples : list jfloat) (n_samples : Z) : M Z :=
  fun s =>
    match contexts s !! ctx with
    | None => Undefined
    | Some c =>
        let '(status, c') := run_full W c params samples n_samples in
        Returns status
          (add_call (CallFull ctx params samples n_samples)
             (set_contexts <[ctx := c']> s))
    end.

(** [whisper_full_n_segments(ctx)] *)
Definition whisper_full_n_segments (ctx : ctx_ptr) : M Z :=
  fun s =>
    match contexts s !! ctx with
    | None => Undefined
    | Some c => Returns (n_segments_of W c) s
    end.

(** [whisper_full_get_segment_text(ctx, i)] *)
Definition whisper_full_get_segment_text (ctx : ctx_ptr) (i : Z) : M (option string) :=
  fun s =>
    match contexts s !! ctx with
    | None => Undefined
    | Some c => Returns (segment_text_of W c i) s
    end.

(** [whisper_free(ctx)] on a context that is not live is a double free. *)
Definition whisper_free (ctx : ctx_ptr) : M unit :=
  fun s =>
    match contexts s !! ctx with
    | None => Undefined
    | Some _ => Returns tt (add_call (CallFree ctx) (set_contexts (delete ctx) s))
    end.

(** ** [Java_com_chiller3_bcr_SpeechRecognitionThread_initWhisper] *)

Definition initWhisper (model_path : jstring) : M jlong :=
  let* modelPath := GetStringUTFChars model_path in
  match modelPath with
  | None =>
      LOGE "Failed to get model path" [] ;;;
      ret 0
  | Some modelPath =>
      LOGD "Initializing whisper with model: %s" [ArgStr modelPath] ;;;
      let cparams := whisper_context_default_params W in
      let* ctx := whisper_init_from_file_with_params modelPath cparams in
      ReleaseStringUTFChars model_path modelPath ;;;
      if ctx =? nullptr then
        LOGE "Failed to initialize whisper context" [] ;;;
        ret 0
      else
        LOGD "Whisper context initialized successfully" [] ;;;
        ret (jlong_of_ptr ctx)
  end.

(** ** [Java_com_chiller3_bcr_SpeechRecognitionThread_transcribeAudio] *)

(** Lines 63-74: the greedy defaults with nine members assigned. *)
Definition wparams : whisper_full_params :=
  let wparams := whisper_full_default_params W WHISPER_SAMPLING_GREEDY in
  {| strategy := strategy wparams;
     print_realtime := false;
     print_progress := false;
     print_timestamps := false;
     print_special := false;
     translate := false;
     language := "en";
     n_threads := 1;
     offset_ms := 0;
     duration_ms := 0 |}.

(** One pass of the body of the [for] loop of lines 97-105 on [fullText]. *)
Definition append_segment (i : Z) (text : option string) (fullText : string) : string :=
  match text with
  | Some text =>
      let fullText := if 0 <? i then fullText +:+ " " else fullText in
      fullText +:+ text
  | None => fullText
  end.

(** The [for] loop from index [i] with [todo] iterations left, that is
    [todo = n_segments - i]. *)
Fixpoint concat_segments (ctx : ctx_ptr) (todo : nat) (i : Z) (fullText : string)
    : M string :=
  match todo with
  | O => ret fullText
  | S todo =>
      let* text := whisper_full_get_segment_text ctx i in
      concat_segments ctx todo (i + 1) (append_segment i text fullText)
  end.

Definition transcribeAudio
    (context_ptr : jlong) (audio_data : jfloatArray) (sample_rate : jint)
    : M (option jstring) :=
  let ctx := ptr_of_jlong context_ptr in
  if ctx =? nullptr then
    LOGE "Invalid whisper context" [] ;;;
    ret None
  else
    let* audioArray := GetFloatArrayElements audio_data in
    let* audioLength := GetArrayLength audio_data in
    match audioArray with
    | None =>
        LOGE "Failed to get audio data" [] ;;;
        ret None
    | Some audioArray =>
        LOGD "Transcribing audio: %d samples at %d Hz"
             [ArgInt audioLength; ArgInt sample_rate] ;;;
        let* result := whisper_full ctx wparams audioArray audioLength in
        ReleaseFloatArrayElements audio_data audioArray JNI_ABORT ;;;
        if negb (result =? 0) then
          LOGE "Whisper inference failed with code: %d" [ArgInt result] ;;;
          ret None
        else
          let* n_segments := whisper_full_n_segments ctx in
          LOGD "Transcription completed with %d segments" [ArgInt n_segments] ;;;
          if n_segments =? 0 then
            LOGD "No segments detected in audio" [] ;;;
            NewStringUTF ""
          else
            let* fullText := concat_segments ctx (Z.to_nat n_segments) 0 "" in
            LOGD "Final transcription: %s" [ArgStr fullText] ;;;
            NewStringUTF fullText
    end.

(** ** [Java_com_chiller3_bcr_SpeechRecognitionThread_freeWhisper] *)

Definition freeWhisper (context_ptr : jlong) : M unit :=
  let ctx := ptr_of_jlong context_ptr in
  if negb (ctx =? nullptr) then
    LOGD "Freeing whisper context" [] ;;;
    whisper_free ctx
  else ret tt.

(** ** The segments a context presents *)

(** The texts at indices [i], [i+1], ... ([todo] of them), as
    [whisper_full_get_segment_text] reports them. *)
Fixpoint read_segments (c : whisper_context W) (todo : nat) (i : Z)
    : list (option string) :=
  match todo with
  | O => []
  | S todo => segment_text_of W c i :: read_segments c todo (i + 1)
  end.

(** The segment sequence of a context: indices [0 .. n_segments-1]. *)
Definition segments_of (c : whisper_context W) : list (option string) :=
  read_segments c (Z.to_nat (n_segments_of W c)) 0.

End Bridge.

Arguments contexts {W} s.
Arguments jarrays {W} s.
Arguments pinned {W} s.
Arguments logcat {W} s.
Arguments calls {W} s.
Arguments Returns {W A} a s.
Arguments Undefined {W A}.
Arguments returned {W A} o.
Arguments defined {W A} o.

(** ** Join rules on a segment sequence *)

(** The separator that goes before the segment at index [i]. *)
Definition separator (i : nat) : string :=
  match i with
  | O => ""
  | S _ => " "
  end.

(** The rule of the loop: a segment without text adds nothing; a segment with
    text adds a space, unless its index is [0], and then its text. *)
Fixpoint join_from (i : nat) (segs : list (option string)) : string :=
  match segs with
  | [] => ""
  | None :: segs => join_from (S i) segs
  | Some text :: segs => separator i +:+ text +:+ join_from (S i) segs
  end.

Definition join_segments (segs : list (option string)) : string := join_from 0 segs.

(** The rule in the words of the design document, section 4.3: a space before
    every segment except the first, whether or not its text is retrievable;
    a segment without text adds no text of its own. *)
Fixpoint index_join_from (i : nat) (segs : list (option string)) : string :=
  match segs with
  | [] => ""
  | seg :: segs => separator i +:+ default "" seg +:+ index_join_from (S i) segs
  end.

Definition index_join (segs : list (option string)) : string := index_join_from 0 segs.

(** ** A scripted engine and a small world, to run the bridge on *)

(** Defaults in the style of the library: four threads, progress and
    timestamps printed. *)
Definition library_defaults (s : whisper_sampling_strategy) : whisper_full_params :=
  {| strategy := s; n_threads := 4; offset_ms := 0; duration_ms := 0;
     translate := false; print_special := false; print_progress := true;
     print_realtime := false; print_timestamps := true; language := "en" |}.

(** An engine whose every inference run ends with [status] and leaves [segs]
    in the context; a context is its segment list.  The empty path does not
    load. *)
Definition scripted (status : Z) (segs : list (option string)) : Whisper :=
  {| whisper_context := list (option string);
     whisper_context_params := unit;
     whisper_context_default_params := tt;
     whisper_full_default_params := library_defaults;
     load_model := fun _ path _ =>
       if String.eqb path "" then None else Some (4096%positive, []);
     run_full := fun _ _ _ _ => (status, segs);
     n_segments_of := fun c => Z.of_nat (length c);
     segment_text_of := fun c i =>
       if i <? 0 then None else default None (c !! Z.to_nat i) |}.

Definition willing_env : JNIEnv :=
  {| string_chars_obtainable := fun _ => true;
     float_elements_obtainable := fun _ _ => true |}.

Definition exhausted_env : JNIEnv :=
  {| string_chars_obtainable := fun _ => false;
     float_elements_obtainable := fun _ _ => false |}.

(** One live context at address 4096 and one three-sample array at
    reference 7. *)
Definition small_world (status : Z) (segs : list (option string))
    : State (scripted status segs) :=
  {| contexts := {[ 4096 := [] ]};
     jarrays := {[ 7 := [0; 1065353216; 0] ]};
     pinned := 0%nat;
     logcat := [];
     calls := [] |}.

(** What [transcribeAudio] hands back in the small world when the engine
    succeeds with segments [segs]. *)
Definition transcript_of (segs : list (option string)) : option (option jstring) :=
  returned (transcribeAudio (scripted 0 segs) willing_env 4096 7 16000
              (small_world 0 segs)).

(** ** What the log and the call trace show *)

Definition debug_line (fmt : string) (args : list log_arg) : log_entry :=
  (ANDROID_LOG_DEBUG, LOG_TAG, fmt, args).

Definition error_line (fmt : string) (args : list log_arg) : log_entry :=
  (ANDROID_LOG_ERROR, LOG_TAG, fmt, args).

Definition is_error (e : log_entry) : bool :=
  match e with
  | (ANDROID_LOG_ERROR, _, _, _) => true
  | (ANDROID_LOG_DEBUG, _, _, _) => false
  end.

(** Number of error-priority lines among some log lines. *)
Definition errors_in (lines : list log_entry) : nat :=
  length (List.filter is_error lines).

(** The lines [transcribeAudio] writes once both of its argument checks have
    passed (lines 60, 82, 88, 91 and 107 of the source). *)
Definition engine_path_log
    (n_samples rate status n_segments : Z) (text : string) : list log_entry :=
  debug_line "Transcribing audio: %d samples at %d Hz"
             [ArgInt n_samples; ArgInt rate]
  :: (if status =? 0 then
        [debug_line "Transcription completed with %d segments" [ArgInt n_segments];
         if n_segments =? 0
         then debug_line "No segments detected in audio" []
         else debug_line "Final transcription: %s" [ArgStr text]]
      else
        [error_line "Whisper inference failed with code: %d" [ArgInt status]]).

Definition is_full_call (c : whisper_call) : bool :=
  match c with
  | CallFull _ _ _ _ => true
  | _ => false
  end.

(** A call seen without the log: the value and the rest of the state. *)
Definition without_log {W : Whisper} {A : Type} (o : outcome W A)
    : option (A * gmap Z (whisper_context W) * gmap Z (list jfloat) * nat
              * list whisper_call) :=
  match o with
  | Returns a s => Some (a, contexts s, jarrays s, pinned s, calls s)
  | Undefined => None
  end.

(** The texts of the segments that have one, in index order. *)
Fixpoint retrievable_texts (segs : list (option string)) : list string :=
  match segs with
  | [] => []
  | Some text :: segs => text :: retrievable_texts segs
  | None :: segs => retrievable_texts segs
  end.

(** A caller that makes one [transcribeAudio] call per request (an array
    reference and a sample rate), in order, on one handle, and collects the
    results. *)
Fixpoint transcribe_each (W : Whisper) (env : JNIEnv) (h : jlong)
    (requests : list (jfloatArray * jint)) : M W (list (option jstring)) :=
  match requests with
  | [] => ret W []
  | (a, rate) :: requests =>
      bind W (transcribeAudio W env h a rate) (fun r =>
      bind W (transcribe_each W env h requests) (fun rs =>
      ret W (r :: rs)))
  end.

(** The one space the loop puts in front of the first text when segment 0
    has none. *)
Definition leading_space (segs : list (option string)) : string :=
  match segs, retrievable_texts segs with
  | None :: _, _ :: _ => " "
  | _, _ => ""
  end.

(** An engine like [scripted], except that it reports [n] segments whatever
    the context holds, each with the text "x". *)
Definition miscounting (n : Z) : Whisper :=
  {| whisper_context := list (option string);
     whisper_context_params := unit;
     whisper_context_default_params := tt;
     whisper_full_default_params := library_defaults;
     load_model := fun _ path _ =>
       if String.eqb path "" then None else Some (4096%positive, []);
     run_full := fun c _ _ _ => (0, c);
     n_segments_of := fun _ => n;
     segment_text_of := fun _ _ => Some "x" |}.

Definition miscounting_world (n : Z) : State (miscounting n) :=
  {| contexts := {[ 4096 := [] ]};
     jarrays := {[ 7 := [0; 1065353216; 0] ]};
     pinned := 0%nat;
     logcat := [];
     calls := [] |}.

(** No context yet; the three-sample array at reference 7. *)
Definition fresh_world (status : Z) (segs : list (option string))
    : State (scripted status segs) :=
  {| contexts := ∅;
     jarrays := {[ 7 := [0; 1065353216; 0] ]};
     pinned := 0%nat;
     logcat := [];
     calls := [] |}.

(** Two live contexts, at 4096 and 8192; the three-sample array at reference
    7 and an array without samples at reference 9. *)
Definition wide_world (status : Z) (segs : list (option string))
    : State (scripted status segs) :=
  {| contexts := <[ 8192 := [Some "old"] ]> {[ 4096 := [] ]};
     jarrays := <[ 9 := [] ]> {[ 7 := [0; 1065353216; 0] ]};
     pinned := 0%nat;
     logcat := [];
     calls := [] |}.

(** Reads of a state component through the state updates; the JNI type
    names are unfolded so that map lookups match syntactically. *)
Ltac state_simpl :=
  cbn [contexts jarrays pinned logcat calls
       set_contexts set_jarrays set_pinned add_log add_call];
  unfold jlong, jint, jfloat, ctx_ptr, jfloatArray in *.

(** * Properties *)

(** ** Strings *)

Lemma append_nil_r (s : string) : s +:+ "" = s.
Proof.
  induction s as [|a s IH]; [reflexivity|].
  change (String a (s +:+ "") = String a s). now rewrite IH.
Qed.

Lemma append_assoc (s1 s2 s3 : string) : (s1 +:+ s2) +:+ s3 = s1 +:+ s2 +:+ s3.
Proof.
  induction s1 as [|a s1 IH]; [reflexivity|].
  change (String a ((s1 +:+ s2) +:+ s3) = String a (s1 +:+ s2 +:+ s3)).
  now rewrite IH.
Qed.

(** ** The segment loop *)

(** One pass of the loop body appends the separator of the index and the
    text, or nothing. *)
Lemma append_segment_Some (j : nat) (text fullText : string) :
  append_segment (Z.of_nat j) (Some text) fullText
  = fullText +:+ separator j +:+ text.
Proof.
  unfold append_segment. destruct j as [|j].
  - reflexivity.
  - replace (0 <? Z.of_nat (S j)) with true by (symmetry; apply Z.ltb_lt; lia).
    simpl separator. now rewrite append_assoc.
Qed.

Section Loop.

Context (W : Whisper).

(** The loop only reads the context: it returns in the state it started in,
    having appended the join of the segments it walked over. *)
Lemma concat_segments_run (s : State W) (ctx : ctx_ptr) (c : whisper_context W) :
  contexts s !! ctx = Some c ->
  forall (todo j : nat) (fullText : string),
    concat_segments W ctx todo (Z.of_nat j) fullText s
    = Returns (fullText +:+ join_from j (read_segments W c todo (Z.of_nat j))) s.
Proof.
  intros Hc todo. induction todo as [|todo IH]; intros j fullText.
  - simpl. unfold ret. now rewrite append_nil_r.
  - simpl. unfold bind, whisper_full_get_segment_text. rewrite Hc.
    replace (Z.of_nat j + 1) with (Z.of_nat (S j)) by lia.
    rewrite IH. f_equal.
    destruct (segment_text_of W c (Z.of_nat j)) as [text|].
    + rewrite append_segment_Some. simpl join_from.
      now rewrite !append_assoc.
    + reflexivity.
Qed.

Lemma concat_segments_all (s : State W) (ctx : ctx_ptr) (c : whisper_context W) :
  contexts s !! ctx = Some c ->
  concat_segments W ctx (Z.to_nat (n_segments_of W c)) 0 "" s
  = Returns (join_segments (segments_of W c)) s.
Proof.
  intros Hc. apply (concat_segments_run s ctx c Hc _ 0%nat "").
Qed.

Lemma segments_of_no_segments (c : whisper_context W) :
  n_segments_of W c = 0 -> segments_of W c = [].
Proof. unfold segments_of. now intros ->. Qed.

End Loop.

(** The scripted engine presents exactly its script. *)
Lemma read_segments_scripted (status : Z) (script : list (option string))
    (pre segs : list (option string)) :
  read_segments (scripted status script) (pre ++ segs) (length segs)
    (Z.of_nat (length pre)) = segs.
Proof.
  revert pre. induction segs as [|seg segs IH]; intros pre; [reflexivity|].
  simpl read_segments. f_equal.
  - simpl. replace (Z.of_nat (length pre) <? 0) with false
      by (symmetry; apply Z.ltb_ge; lia).
    rewrite Nat2Z.id. rewrite lookup_app_r by lia.
    now rewrite Nat.sub_diag.
  - specialize (IH (pre ++ [seg])).
    rewrite <- app_assoc in IH. simpl in IH.
    rewrite length_app in IH. simpl in IH.
    replace (Z.of_nat (length pre) + 1) with (Z.of_nat (length pre + 1)) by lia.
    exact IH.
Qed.

Lemma segments_of_scripted (status : Z) (script segs : list (option string)) :
  segments_of (scripted status script) segs = segs.
Proof.
  unfold segments_of. simpl n_segments_of. rewrite Nat2Z.id.
  apply (read_segments_scripted status script [] segs).
Qed.

(** ** Running [transcribeAudio] *)

Section Transcribe.

Context (W : Whisper) (env : JNIEnv).

(** A null handle: one error line is logged and [nullptr] is returned. *)
Lemma transcribe_null_handle (s : State W) (audio_data : jfloatArray) (rate : jint) :
  transcribeAudio W env 0 audio_data rate s
  = Returns None
      (add_log W (ANDROID_LOG_ERROR, LOG_TAG, "Invalid whisper context", []) s).
Proof. reflexivity. Qed.

(** The runtime cannot hand out the elements: [nullptr], and only the log
    has changed. *)
Lemma transcribe_no_elements (s : State W) (h : jlong) (a : jfloatArray)
    (rate : jint) (elems : list jfloat) :
  h <> 0 ->
  jarrays s !! a = Some elems ->
  float_elements_obtainable env a elems = false ->
  transcribeAudio W env h a rate s
  = Returns None
      (add_log W (ANDROID_LOG_ERROR, LOG_TAG, "Failed to get audio data", []) s).
Proof.
  intros Hh Ha Hno. unfold transcribeAudio, ptr_of_jlong, nullptr.
  destruct (Z.eqb_spec h 0) as [|_]; [contradiction|].
  unfold bind, GetFloatArrayElements, GetArrayLength.
  rewrite Ha, Hno, Ha. reflexivity.
Qed.

(** The engine is reached: it runs once on the elements of the array, with
    [wparams]; the buffer is released; the result is [nullptr] for a non-zero
    status and the join of the segments otherwise. *)
Lemma transcribe_run (s : State W) (h : jlong) (a : jfloatArray) (rate : jint)
    (elems : list jfloat) (c c' : whisper_context W) (status : Z) :
  h <> 0 ->
  contexts s !! h = Some c ->
  jarrays s !! a = Some elems ->
  float_elements_obtainable env a elems = true ->
  run_full W c (wparams W) elems (Z.of_nat (length elems)) = (status, c') ->
  exists s' : State W,
    transcribeAudio W env h a rate s
    = Returns (if status =? 0 then Some (join_segments (segments_of W c')) else None) s'
    /\ contexts s' = <[h := c']> (contexts s)
    /\ jarrays s' = jarrays s
    /\ pinned s' = pinned s
    /\ calls s' = calls s ++ [CallFull h (wparams W) elems (Z.of_nat (length elems))].
Proof.
  intros Hh Hc Ha Hok Hrun. unfold transcribeAudio, ptr_of_jlong, nullptr.
  destruct (Z.eqb_spec h 0) as [|_]; [contradiction|].
  unfold bind at 1. unfold GetFloatArrayElements. rewrite Ha, Hok.
  unfold bind at 1. unfold GetArrayLength. state_simpl. rewrite Ha.
  unfold bind at 1. unfold LOGD at 1, modify.
  unfold bind at 1. unfold whisper_full. state_simpl. rewrite Hc, Hrun.
  unfold bind at 1. unfold ReleaseFloatArrayElements.
  state_simpl. rewrite Ha.
  change (JNI_ABORT =? JNI_ABORT) with true. cbn iota.
  destruct (Z.eqb_spec status 0) as [->|Hst]; cbn [negb].
  - unfold bind at 1. unfold whisper_full_n_segments.
    state_simpl. rewrite lookup_insert_eq.
    unfold bind at 1. unfold LOGD at 1, modify.
    destruct (Z.eqb_spec (n_segments_of W c') 0) as [Hn|Hn].
    + rewrite (segments_of_no_segments W c' Hn).
      eexists. split; [reflexivity|]. cbn. auto.
    + unfold bind at 1. rewrite (concat_segments_all W _ h c').
      * eexists. split; [reflexivity|]. cbn. auto.
      * cbn. apply lookup_insert_eq.
  - eexists. split; [reflexivity|]. cbn. auto.
Qed.

End Transcribe.

(** ** Joining retrievable texts *)

Lemma join_from_S_texts (texts : list string) (i : nat) :
  join_from (S i) (map Some texts)
  = match texts with
    | [] => ""
    | _ :: _ => " " +:+ String.concat " " texts
    end.
Proof.
  revert i. induction texts as [|text texts IH]; intros i; [reflexivity|].
  cbn [map join_from separator]. rewrite IH.
  destruct texts as [|text' texts].
  - cbn [String.concat]. now rewrite append_nil_r.
  - reflexivity.
Qed.

Lemma join_segments_texts (texts : list string) :
  join_segments (map Some texts) = String.concat " " texts.
Proof.
  destruct texts as [|text texts]; [reflexivity|].
  unfold join_segments. cbn [map join_from separator].
  rewrite join_from_S_texts. destruct texts as [|text' texts].
  - cbn [String.concat]. change ("" +:+ text +:+ "") with (text +:+ "").
    apply append_nil_r.
  - reflexivity.
Qed.

(** ** Claims about the transcript *)

(** C1: when the engine returns status zero and reports zero segments,
    [transcribeAudio] returns the empty string, a value different from the
    absent result [nullptr]. *)
Theorem C1_zero_segments_is_empty_string
    (W : Whisper) (env : JNIEnv) (s : State W) (h : jlong) (a : jfloatArray)
    (rate : jint) (elems : list jfloat) (c c' : whisper_context W) :
  h <> 0 ->
  contexts s !! h = Some c ->
  jarrays s !! a = Some elems ->
  float_elements_obtainable env a elems = true ->
  run_full W c (wparams W) elems (Z.of_nat (length elems)) = (0, c') ->
  n_segments_of W c' = 0 ->
  returned (transcribeAudio W env h a rate s) = Some (Some "")
  /\ returned (transcribeAudio W env h a rate s) <> Some None.
Proof.
  intros Hh Hc Ha Hok Hrun Hn.
  destruct (transcribe_run W env s h a rate elems c c' 0 Hh Hc Ha Hok Hrun)
    as (s' & Hs' & _).
  rewrite Hs'. cbn. rewrite (segments_of_no_segments W c' Hn).
  split; [reflexivity | discriminate].
Qed.

Lemma C1_zero_segments_is_empty_string_witness :
  returned (transcribeAudio (scripted 0 []) willing_env 4096 7 16000
              (small_world 0 [])) = Some (Some "")
  /\ returned (transcribeAudio (scripted 0 []) willing_env 4096 7 16000
                 (small_world 0 [])) <> Some None.
Proof.
  apply (C1_zero_segments_is_empty_string (scripted 0 []) willing_env
           (small_world 0 []) 4096 7 16000 [0; 1065353216; 0] [] []);
    solve [reflexivity | lia].
Defined.

(** C2: with the zero handle, whatever the array reference and the sample
    rate, and in every state, [transcribeAudio] returns: its value is the
    absent result [nullptr], and it has touched nothing but the log. *)
Theorem C2_zero_handle_is_absent
    (W : Whisper) (env : JNIEnv) (s : State W) (audio_data : jfloatArray)
    (sample_rate : jint) :
  returned (transcribeAudio W env 0 audio_data sample_rate s) = Some None
  /\ defined (transcribeAudio W env 0 audio_data sample_rate s) = true
  /\ exists s' : State W,
       transcribeAudio W env 0 audio_data sample_rate s = Returns None s'
       /\ contexts s' = contexts s /\ jarrays s' = jarrays s
       /\ pinned s' = pinned s /\ calls s' = calls s.
Proof.
  rewrite transcribe_null_handle. repeat split.
  eexists. split; [reflexivity|]. cbn. auto.
Qed.

(** C3 as stated fails: for the segments ["a", no text] the bridge returns
    "a", whereas a space before every segment but the first, retrievable or
    not, gives "a " . *)
Lemma C3_index_join_counterexample :
  transcript_of [Some "a"; None] = Some (Some "a")
  /\ index_join [Some "a"; None] = "a "
  /\ transcript_of [Some "a"; None] <> Some (Some (index_join [Some "a"; None])).
Proof. vm_compute. repeat split. discriminate. Qed.

(** C3, amended: for every sequence of segments, the result is
    [join_segments]: a segment with text contributes a single space, unless
    its index is 0, followed by its text; a segment without text contributes
    nothing, neither text nor space.  The space depends on the index of the
    segment alone, not on whether earlier segments had text. *)
Theorem C3_join_rule :
  (forall (W : Whisper) (env : JNIEnv) (s : State W) (h : jlong)
          (a : jfloatArray) (rate : jint) (elems : list jfloat)
          (c c' : whisper_context W) (segs : list (option string)),
      h <> 0 ->
      contexts s !! h = Some c ->
      jarrays s !! a = Some elems ->
      float_elements_obtainable env a elems = true ->
      run_full W c (wparams W) elems (Z.of_nat (length elems)) = (0, c') ->
      segments_of W c' = segs ->
      returned (transcribeAudio W env h a rate s)
      = Some (Some (join_segments segs)))
  /\ (forall segs : list (option string),
        transcript_of segs = Some (Some (join_segments segs))).
Proof.
  assert (Hgen : forall (W : Whisper) (env : JNIEnv) (s : State W) (h : jlong)
            (a : jfloatArray) (rate : jint) (elems : list jfloat)
            (c c' : whisper_context W) (segs : list (option string)),
      h <> 0 ->
      contexts s !! h = Some c ->
      jarrays s !! a = Some elems ->
      float_elements_obtainable env a elems = true ->
      run_full W c (wparams W) elems (Z.of_nat (length elems)) = (0, c') ->
      segments_of W c' = segs ->
      returned (transcribeAudio W env h a rate s)
      = Some (Some (join_segments segs))).
  { intros W env s h a rate elems c c' segs Hh Hc Ha Hok Hrun <-.
    destruct (transcribe_run W env s h a rate elems c c' 0 Hh Hc Ha Hok Hrun)
      as (s' & Hs' & _).
    now rewrite Hs'. }
  split; [exact Hgen|].
  intros segs. unfold transcript_of.
  apply (Hgen (scripted 0 segs) willing_env (small_world 0 segs) 4096 7 16000
           [0; 1065353216; 0] [] segs segs); try reflexivity; try lia.
  apply segments_of_scripted.
Qed.

Lemma C3_join_rule_witness :
  returned (transcribeAudio (scripted 0 [None; Some "b"; None; Some "c"])
              willing_env 4096 7 16000
              (small_world 0 [None; Some "b"; None; Some "c"]))
  = Some (Some " b c").
Proof.
  apply (proj1 C3_join_rule
           (scripted 0 [None; Some "b"; None; Some "c"]) willing_env
           (small_world 0 [None; Some "b"; None; Some "c"]) 4096 7 16000
           [0; 1065353216; 0] [] [None; Some "b"; None; Some "c"]
           [None; Some "b"; None; Some "c"]);
    solve [reflexivity | lia].
Defined.

(** C4: for every sequence of segments whose texts are all retrievable, the
    result is the texts joined by single spaces, in index order; in
    particular ["hello", "world"] gives "hello world", ["hello"] gives
    "hello" and no segment at all gives "". *)
Theorem C4_space_joined_texts :
  (forall (W : Whisper) (env : JNIEnv) (s : State W) (h : jlong)
          (a : jfloatArray) (rate : jint) (elems : list jfloat)
          (c c' : whisper_context W) (texts : list string),
      h <> 0 ->
      contexts s !! h = Some c ->
      jarrays s !! a = Some elems ->
      float_elements_obtainable env a elems = true ->
      run_full W c (wparams W) elems (Z.of_nat (length elems)) = (0, c') ->
      segments_of W c' = map Some texts ->
      returned (transcribeAudio W env h a rate s)
      = Some (Some (String.concat " " texts)))
  /\ (forall texts : list string,
        transcript_of (map Some texts) = Some (Some (String.concat " " texts)))
  /\ transcript_of [Some "hello"; Some "world"] = Some (Some "hello world")
  /\ transcript_of [Some "hello"] = Some (Some "hello")
  /\ transcript_of [] = Some (Some "").
Proof.
  assert (Hgen : forall (W : Whisper) (env : JNIEnv) (s : State W) (h : jlong)
            (a : jfloatArray) (rate : jint) (elems : list jfloat)
            (c c' : whisper_context W) (texts : list string),
      h <> 0 ->
      contexts s !! h = Some c ->
      jarrays s !! a = Some elems ->
      float_elements_obtainable env a elems = true ->
      run_full W c (wparams W) elems (Z.of_nat (length elems)) = (0, c') ->
      segments_of W c' = map Some texts ->
      returned (transcribeAudio W env h a rate s)
      = Some (Some (String.concat " " texts))).
  { intros W env s h a rate elems c c' texts Hh Hc Ha Hok Hrun Hsegs.
    destruct (transcribe_run W env s h a rate elems c c' 0 Hh Hc Ha Hok Hrun)
      as (s' & Hs' & _).
    rewrite Hs'. cbn. now rewrite Hsegs, join_segments_texts. }
  split; [exact Hgen|]. split; [|repeat split].
  intros texts. unfold transcript_of.
  apply (Hgen (scripted 0 (map Some texts)) willing_env
           (small_world 0 (map Some texts)) 4096 7 16000
           [0; 1065353216; 0] [] (map Some texts) texts);
    try reflexivity; try lia.
  apply segments_of_scripted.
Qed.

Lemma C4_space_joined_texts_witness :
  returned (transcribeAudio (scripted 0 [Some "good"; Some "morning"; Some "all"])
              willing_env 4096 7 16000
              (small_world 0 [Some "good"; Some "morning"; Some "all"]))
  = Some (Some "good morning all").
Proof.
  apply (proj1 C4_space_joined_texts
           (scripted 0 [Some "good"; Some "morning"; Some "all"]) willing_env
           (small_world 0 [Some "good"; Some "morning"; Some "all"]) 4096 7 16000
           [0; 1065353216; 0] [] [Some "good"; Some "morning"; Some "all"]
           ["good"; "morning"; "all"]);
    solve [reflexivity | lia].
Defined.

(** ** Every way a [transcribeAudio] call can go *)

Section Cases.

Context (W : Whisper) (env : JNIEnv).

Lemma transcribe_bad_array (s : State W) (h : jlong) (a : jfloatArray) (rate : jint) :
  h <> 0 ->
  jarrays s !! a = None ->
  transcribeAudio W env h a rate s = Undefined.
Proof.
  intros Hh Ha. unfold transcribeAudio, ptr_of_jlong, nullptr.
  destruct (Z.eqb_spec h 0) as [|_]; [contradiction|].
  unfold bind, GetFloatArrayElements. now rewrite Ha.
Qed.

Lemma transcribe_dangling (s : State W) (h : jlong) (a : jfloatArray) (rate : jint)
    (elems : list jfloat) :
  h <> 0 ->
  jarrays s !! a = Some elems ->
  float_elements_obtainable env a elems = true ->
  contexts s !! h = None ->
  transcribeAudio W env h a rate s = Undefined.
Proof.
  intros Hh Ha Hok Hc. unfold transcribeAudio, ptr_of_jlong, nullptr.
  destruct (Z.eqb_spec h 0) as [|_]; [contradiction|].
  unfold bind at 1. unfold GetFloatArrayElements. rewrite Ha, Hok.
  unfold bind at 1. unfold GetArrayLength. state_simpl. rewrite Ha.
  unfold bind at 1. unfold LOGD at 1, modify.
  unfold bind at 1. unfold whisper_full. state_simpl. now rewrite Hc.
Qed.

(** The four ways: returned at the handle check; undefined; returned at the
    element check; went through the engine. *)
Lemma transcribe_cases (s : State W) (h : jlong) (a : jfloatArray) (rate : jint) :
  (h = 0 /\
   transcribeAudio W env h a rate s
   = Returns None (add_log W (ANDROID_LOG_ERROR, LOG_TAG, "Invalid whisper context", []) s))
  \/ (h <> 0 /\ transcribeAudio W env h a rate s = Undefined)
  \/ (h <> 0 /\ exists elems : list jfloat,
        jarrays s !! a = Some elems /\
        float_elements_obtainable env a elems = false /\
        transcribeAudio W env h a rate s
        = Returns None (add_log W (ANDROID_LOG_ERROR, LOG_TAG, "Failed to get audio data", []) s))
  \/ (h <> 0 /\ exists (elems : list jfloat) (c c' : whisper_context W) (status : Z),
        jarrays s !! a = Some elems /\
        float_elements_obtainable env a elems = true /\
        contexts s !! h = Some c /\
        run_full W c (wparams W) elems (Z.of_nat (length elems)) = (status, c') /\
        exists s' : State W,
          transcribeAudio W env h a rate s
          = Returns (if status =? 0 then Some (join_segments (segments_of W c')) else None) s'
          /\ contexts s' = <[h := c']> (contexts s)
          /\ jarrays s' = jarrays s
          /\ pinned s' = pinned s
          /\ calls s' = calls s ++ [CallFull h (wparams W) elems (Z.of_nat (length elems))]).
Proof.
  destruct (Z.eq_dec h 0) as [->|Hh].
  { left. split; [reflexivity | apply transcribe_null_handle]. }
  right. destruct (jarrays s !! a) as [elems|] eqn:Ha.
  2:{ left. split; [assumption | now apply transcribe_bad_array]. }
  destruct (float_elements_obtainable env a elems) eqn:Hok.
  2:{ right. left. split; [assumption|]. exists elems. repeat split; try assumption.
      now apply transcribe_no_elements with (elems := elems). }
  destruct (contexts s !! h) as [c|] eqn:Hc.
  2:{ left. split; [assumption | now apply transcribe_dangling with (elems := elems)]. }
  right. right. split; [assumption|].
  destruct (run_full W c (wparams W) elems (Z.of_nat (length elems)))
    as [status c'] eqn:Hrun.
  exists elems, c, c', status. repeat split; try assumption.
  now apply transcribe_run with (c := c).
Qed.

(** Releasing in abort mode leaves the Java array as it was, whatever the
    native buffer holds. *)
Lemma release_abort_keeps_array (s s1 : State W) (a : jfloatArray)
    (buffer : list jfloat) :
  ReleaseFloatArrayElements W a buffer JNI_ABORT s = Returns tt s1 ->
  jarrays s1 = jarrays s.
Proof.
  unfold ReleaseFloatArrayElements. destruct (jarrays s !! a); [|discriminate].
  change (JNI_ABORT =? JNI_ABORT) with true. cbn iota.
  intros [= <-]. reflexivity.
Qed.

(** Mode [0] does write the native buffer back. *)
Lemma release_copy_back_writes_array (s : State W) (a : jfloatArray)
    (old buffer : list jfloat) :
  jarrays s !! a = Some old ->
  exists s1 : State W,
    ReleaseFloatArrayElements W a buffer 0 s = Returns tt s1
    /\ jarrays s1 !! a = Some buffer.
Proof.
  intros Ha. unfold ReleaseFloatArrayElements. rewrite Ha.
  eexists. split; [reflexivity|]. cbn. apply lookup_insert_eq.
Qed.

End Cases.

Lemma join_from_no_text (segs : list (option string)) (i : nat) :
  (forall seg, seg ∈ segs -> seg = None) -> join_from i segs = "".
Proof.
  revert i. induction segs as [|seg segs IH]; intros i Hall; [reflexivity|].
  rewrite (Hall seg) by apply list_elem_of_here. cbn [join_from].
  apply IH. intros seg' Hin. apply Hall. now apply list_elem_of_further.
Qed.

(** ** Claims about the context lifecycle *)

(** C5: every [initWhisper] call returns normally with a handle.  The handle
    is the zero sentinel exactly when the path characters cannot be obtained
    or the model does not load, and then no context has been allocated;
    otherwise it is non-zero and names the freshly loaded context. *)
Theorem C5_initialize_handle
    (W : Whisper) (env : JNIEnv) (s : State W) (model_path : jstring) :
  exists (h : jlong) (s' : State W),
    initWhisper W env model_path s = Returns h s'
    /\ (h = 0 <->
        string_chars_obtainable env model_path = false
        \/ load_model W (contexts s) model_path (whisper_context_default_params W)
           = None)
    /\ (h = 0 -> contexts s' = contexts s)
    /\ (h <> 0 -> exists c : whisper_context W,
          load_model W (contexts s) model_path (whisper_context_default_params W)
          = Some (Z.to_pos h, c)
          /\ contexts s' = <[h := c]> (contexts s))
    /\ pinned s' = pinned s
    /\ jarrays s' = jarrays s.
Proof.
  unfold initWhisper, GetStringUTFChars.
  destruct (string_chars_obtainable env model_path) eqn:Hchars;
    cbv [bind modify ret LOGD LOGE whisper_init_from_file_with_params
         ReleaseStringUTFChars]; state_simpl.
  - destruct (load_model W _ _ _) as [[addr c]|] eqn:Hload.
    + eexists _, _. split; [reflexivity|]. cbn. unfold jlong_of_ptr.
      repeat split; try (intros; lia).
      * intros [?|?]; discriminate.
      * intros _. exists c. split; reflexivity.
    + eexists _, _. split; [reflexivity|]. cbn.
      repeat split; auto. intros ?; contradiction.
  - eexists _, _. split; [reflexivity|]. cbn.
    repeat split; auto. intros ?; contradiction.
Qed.

(** C8: [freeWhisper] with the zero sentinel leaves the state exactly as it
    was: nothing freed, nothing logged.  With a non-zero handle of a live
    context it makes one [whisper_free] call, on that context, which is then
    gone; every other context stays. *)
Theorem C8_release
    (W : Whisper) (s : State W) :
  freeWhisper W 0 s = Returns tt s
  /\ forall (h : jlong) (c : whisper_context W),
       h <> 0 ->
       contexts s !! h = Some c ->
       exists s' : State W,
         freeWhisper W h s = Returns tt s'
         /\ calls s' = calls s ++ [CallFree h]
         /\ contexts s' = delete h (contexts s)
         /\ contexts s' !! h = None
         /\ jarrays s' = jarrays s.
Proof.
  split; [now destruct s|].
  intros h c Hh Hc. unfold freeWhisper, ptr_of_jlong, nullptr.
  destruct (Z.eqb_spec h 0) as [|_]; [contradiction|].
  cbn [negb]. unfold bind, LOGD, modify, whisper_free. state_simpl. rewrite Hc.
  eexists. split; [reflexivity|]. cbn. repeat split.
  apply lookup_delete_eq.
Qed.

Lemma C8_release_witness :
  exists s' : State (scripted 0 []),
    freeWhisper (scripted 0 []) 4096 (small_world 0 []) = Returns tt s'
    /\ calls s' = calls (small_world 0 []) ++ [CallFree 4096]
    /\ contexts s' = delete 4096 (contexts (small_world 0 []))
    /\ contexts s' !! 4096 = None
    /\ jarrays s' = jarrays (small_world 0 []).
Proof.
  apply (proj2 (C8_release (scripted 0 []) (small_world 0 [])) 4096 []);
    solve [reflexivity | lia].
Defined.

(** ** Claims about failure and the frame of [transcribeAudio] *)

(** C6: with a live handle, when the engine returns a non-zero status,
    [transcribeAudio] returns the absent result; the same contexts are live
    afterwards, the Java array holds what it held, the native buffer has been
    released, and both a retry and a release of the handle are defined. *)
Theorem C6_inference_failure
    (W : Whisper) (env : JNIEnv) (s : State W) (h : jlong) (a : jfloatArray)
    (rate : jint) (elems : list jfloat) (c c' : whisper_context W) (status : Z) :
  h <> 0 ->
  contexts s !! h = Some c ->
  jarrays s !! a = Some elems ->
  float_elements_obtainable env a elems = true ->
  run_full W c (wparams W) elems (Z.of_nat (length elems)) = (status, c') ->
  status <> 0 ->
  exists s' : State W,
    transcribeAudio W env h a rate s = Returns None s'
    /\ dom (contexts s') = dom (contexts s)
    /\ is_Some (contexts s' !! h)
    /\ jarrays s' = jarrays s
    /\ pinned s' = pinned s
    /\ defined (transcribeAudio W env h a rate s') = true
    /\ defined (freeWhisper W h s') = true.
Proof.
  intros Hh Hc Ha Hok Hrun Hst.
  destruct (transcribe_run W env s h a rate elems c c' status Hh Hc Ha Hok Hrun)
    as (s' & Hs' & Hctx & Harr & Hpin & _).
  exists s'. replace (status =? 0) with false in Hs'
    by (symmetry; now apply Z.eqb_neq).
  assert (Hlive : contexts s' !! h = Some c')
    by (rewrite Hctx; apply lookup_insert_eq).
  repeat split; try assumption.
  - rewrite Hctx. apply dom_insert_lookup_L. eauto.
  - eauto.
  - destruct (run_full W c' (wparams W) elems (Z.of_nat (length elems)))
      as [status2 c2] eqn:Hrun2.
    rewrite <- Harr in Ha.
    destruct (transcribe_run W env s' h a rate elems c' c2 status2
                Hh Hlive Ha Hok Hrun2) as (s2 & Hs2 & _).
    now rewrite Hs2.
  - unfold freeWhisper, ptr_of_jlong, nullptr.
    destruct (Z.eqb_spec h 0) as [|_]; [contradiction|].
    cbn [negb]. unfold bind, LOGD, modify, whisper_free. state_simpl.
    now rewrite Hlive.
Qed.

Lemma C6_inference_failure_witness :
  exists s' : State (scripted (-3) []),
    transcribeAudio (scripted (-3) []) willing_env 4096 7 16000
      (small_world (-3) []) = Returns None s'
    /\ dom (contexts s') = dom (contexts (small_world (-3) []))
    /\ is_Some (contexts s' !! 4096)
    /\ jarrays s' = jarrays (small_world (-3) [])
    /\ pinned s' = pinned (small_world (-3) [])
    /\ defined (transcribeAudio (scripted (-3) []) willing_env 4096 7 16000 s') = true
    /\ defined (freeWhisper (scripted (-3) []) 4096 s') = true.
Proof.
  apply (C6_inference_failure (scripted (-3) []) willing_env
           (small_world (-3) []) 4096 7 16000 [0; 1065353216; 0] [] [] (-3));
    solve [reflexivity | lia].
Defined.

(** C7: every [transcribeAudio] call that gets past its two argument checks
    (non-zero handle of a live context, array elements obtained) returns
    after exactly one [whisper_full] call, on the whole array, and the
    parameters passed in that call are: greedy decoding, translation off,
    language "en", one thread, the four print flags off, offset and duration
    zero.  The parameters depend on nothing but the library's defaults, so
    they are built afresh, and identically, in every call; a call that
    returns at an argument check makes no [whisper_full] call at all. *)
Theorem C7_inference_parameters
    (W : Whisper) (env : JNIEnv) (s : State W) (h : jlong) (a : jfloatArray)
    (rate : jint) :
  strategy (whisper_full_default_params W WHISPER_SAMPLING_GREEDY)
  = WHISPER_SAMPLING_GREEDY ->
  (forall (elems : list jfloat) (c : whisper_context W),
      h <> 0 ->
      contexts s !! h = Some c ->
      jarrays s !! a = Some elems ->
      float_elements_obtainable env a elems = true ->
      exists (r : option jstring) (s' : State W) (p : whisper_full_params),
        transcribeAudio W env h a rate s = Returns r s'
        /\ calls s' = calls s ++ [CallFull h p elems (Z.of_nat (length elems))]
        /\ p = wparams W
        /\ p = {| strategy := WHISPER_SAMPLING_GREEDY;
                  n_threads := 1;
                  offset_ms := 0;
                  duration_ms := 0;
                  translate := false;
                  print_special := false;
                  print_progress := false;
                  print_realtime := false;
                  print_timestamps := false;
                  language := "en" |})
  /\ (forall (r : option jstring) (s' : State W),
        transcribeAudio W env h a rate s = Returns r s' ->
        (h = 0 \/ (exists elems : list jfloat,
                     jarrays s !! a = Some elems
                     /\ float_elements_obtainable env a elems = false) ->
         calls s' = calls s)
        /\ (calls s' = calls s
            \/ exists elems : list jfloat,
                 jarrays s !! a = Some elems
                 /\ calls s'
                    = calls s
                      ++ [CallFull h (wparams W) elems (Z.of_nat (length elems))])).
Proof.
  intros Hgreedy. split.
  - intros elems c Hh Hc Ha Hok.
    destruct (run_full W c (wparams W) elems (Z.of_nat (length elems)))
      as [status c'] eqn:Hrun.
    destruct (transcribe_run W env s h a rate elems c c' status
                Hh Hc Ha Hok Hrun) as (s' & Hs' & _ & _ & _ & Hcalls).
    eexists _, s', (wparams W). split; [exact Hs'|]. split; [exact Hcalls|].
    split; [reflexivity|]. unfold wparams. now rewrite Hgreedy.
  - intros r s' Hrun.
    destruct (transcribe_cases W env s h a rate)
      as [[Hh H]|[[_ H]|[[_ (elems & _ & _ & H)]
         |[Hh (elems & c & c' & status & Ha & Hok & _ & _ & s2 & H
               & _ & _ & _ & Hcalls)]]]];
      rewrite H in Hrun; try discriminate; injection Hrun as <- <-.
    + split; [reflexivity | now left].
    + split; [reflexivity | now left].
    + split.
      * intros [Hzero|(elems' & Ha' & Hno)]; [contradiction|].
        rewrite Ha in Ha'. injection Ha' as <-. congruence.
      * right. exists elems. split; assumption.
Qed.

Lemma C7_inference_parameters_witness :
  exists (r : option jstring) (s' : State (scripted 0 [Some "yes"]))
         (p : whisper_full_params),
    transcribeAudio (scripted 0 [Some "yes"]) willing_env 4096 7 16000
      (small_world 0 [Some "yes"]) = Returns r s'
    /\ calls s'
       = calls (small_world 0 [Some "yes"])
         ++ [CallFull 4096 p [0; 1065353216; 0]
               (Z.of_nat (length [0; 1065353216; 0]))]
    /\ p = wparams (scripted 0 [Some "yes"])
    /\ p = {| strategy := WHISPER_SAMPLING_GREEDY; n_threads := 1;
              offset_ms := 0; duration_ms := 0; translate := false;
              print_special := false; print_progress := false;
              print_realtime := false; print_timestamps := false;
              language := "en" |}.
Proof.
  apply (proj1 (C7_inference_parameters (scripted 0 [Some "yes"]) willing_env
                  (small_world 0 [Some "yes"]) 4096 7 16000 eq_refl)
           [0; 1065353216; 0] []);
    solve [reflexivity | lia].
Defined.

(** C9: whenever the array reference is valid and the handle is zero or
    live, [transcribeAudio] returns, and its result is absent exactly when
    the handle is zero, or the elements cannot be obtained, or the engine
    status is non-zero.  With engine status zero the result is a string, and
    it is the empty string when no segment has a retrievable text. *)
Theorem C9_absent_iff
    (W : Whisper) (env : JNIEnv) (s : State W) (h : jlong) (a : jfloatArray)
    (rate : jint) (elems : list jfloat) (c : whisper_context W) :
  jarrays s !! a = Some elems ->
  (h <> 0 -> contexts s !! h = Some c) ->
  let run := run_full W c (wparams W) elems (Z.of_nat (length elems)) in
  exists (r : option jstring) (s' : State W),
    transcribeAudio W env h a rate s = Returns r s'
    /\ (r = None <->
        h = 0 \/ float_elements_obtainable env a elems = false \/ fst run <> 0)
    /\ (h <> 0 -> float_elements_obtainable env a elems = true -> fst run = 0 ->
        (exists text : string, r = Some text)
        /\ ((forall seg, seg ∈ segments_of W (snd run) -> seg = None) ->
            r = Some "")).
Proof.
  intros Ha Hlive run.
  destruct (Z.eq_dec h 0) as [->|Hh].
  { eexists _, _. split; [apply transcribe_null_handle|].
    split; [|intros; contradiction]. split; auto. }
  specialize (Hlive Hh).
  destruct (float_elements_obtainable env a elems) eqn:Hok.
  2:{ eexists _, _. split; [now apply transcribe_no_elements with (elems := elems)|].
      split; [|intros; discriminate]. split; auto. }
  destruct run as [status c'] eqn:Hrun. subst run.
  destruct (transcribe_run W env s h a rate elems c c' status Hh Hlive Ha Hok Hrun)
    as (s' & Hs' & _).
  eexists _, _. split; [exact Hs'|]. cbn [fst snd].
  destruct (Z.eqb_spec status 0) as [->|Hst].
  - split.
    + split; [discriminate|]. intros [?|[?|?]]; [contradiction|discriminate|contradiction].
    + intros _ _ _. split; [eauto|].
      intros Hnone. f_equal. now apply join_from_no_text.
  - split; [|intros; contradiction]. split; auto.
Qed.

Lemma C9_absent_iff_witness :
  exists (r : option jstring) (s' : State (scripted 0 [None; None])),
    transcribeAudio (scripted 0 [None; None]) willing_env 4096 7 16000
      (small_world 0 [None; None]) = Returns r s'
    /\ (r = None <-> 4096 = 0 \/ true = false \/ 0 <> 0)
    /\ (4096 <> 0 -> true = true -> 0 = 0 ->
        (exists text : string, r = Some text)
        /\ ((forall seg : option string, seg ∈ [None; None] -> seg = None) ->
            r = Some "")).
Proof.
  apply (C9_absent_iff (scripted 0 [None; None]) willing_env
           (small_world 0 [None; None]) 4096 7 16000 [0; 1065353216; 0] []);
    solve [reflexivity | intros; reflexivity].
Defined.

(** C10: every [transcribeAudio] call that returns, with a text or without,
    leaves every Java array, the audio array among them, holding what it held
    before the call; the one release the bridge makes is in abort mode, which
    writes nothing back whatever the native buffer holds. *)
Theorem C10_audio_buffer_unchanged
    (W : Whisper) (env : JNIEnv) (s : State W) (h : jlong) (a : jfloatArray)
    (rate : jint) (r : option jstring) (s' : State W) :
  transcribeAudio W env h a rate s = Returns r s' ->
  jarrays s' = jarrays s
  /\ jarrays s' !! a = jarrays s !! a
  /\ forall (buffer : list jfloat) (s1 : State W),
       ReleaseFloatArrayElements W a buffer JNI_ABORT s = Returns tt s1 ->
       jarrays s1 = jarrays s.
Proof.
  intros Hrun.
  assert (Harr : jarrays s' = jarrays s).
  { destruct (transcribe_cases W env s h a rate)
      as [[_ H]|[[_ H]|[[_ (elems & _ & _ & H)]
         |[_ (elems & c & c' & status & _ & _ & _ & _ & s2 & H & _ & Harr & _)]]]];
      rewrite H in Hrun; try discriminate; injection Hrun as <- <-;
      solve [reflexivity | exact Harr]. }
  split; [exact Harr|]. split; [now rewrite Harr|].
  intros buffer s1. apply release_abort_keeps_array.
Qed.

Lemma C10_audio_buffer_unchanged_witness :
  exists (r : option jstring) (s' : State (scripted 0 [Some "hi"])),
    transcribeAudio (scripted 0 [Some "hi"]) willing_env 4096 7 16000
      (small_world 0 [Some "hi"]) = Returns r s'
    /\ jarrays s' !! 7 = Some [0; 1065353216; 0].
Proof.
  eexists _, _. split; [reflexivity|].
  refine (proj1 (proj2 (C10_audio_buffer_unchanged (scripted 0 [Some "hi"])
    willing_env (small_world 0 [Some "hi"]) 4096 7 16000 _ _ _))).
  reflexivity.
Defined.

(** * Further properties of the three entry points *)

(** ** Running [initWhisper] and [freeWhisper] *)

Section Lifecycle.

Context (W : Whisper) (env : JNIEnv).

(** The characters of the path cannot be obtained: the engine is not called. *)
Lemma init_no_chars (s : State W) (path : jstring) :
  string_chars_obtainable env path = false ->
  initWhisper W env path s
  = Returns 0 (add_log W (error_line "Failed to get model path" []) s).
Proof.
  intros Hno. unfold initWhisper, GetStringUTFChars. rewrite Hno. reflexivity.
Qed.

(** The model does not load. *)
Lemma init_load_failed (s : State W) (path : jstring) :
  string_chars_obtainable env path = true ->
  load_model W (contexts s) path (whisper_context_default_params W) = None ->
  exists s' : State W,
    initWhisper W env path s = Returns 0 s'
    /\ contexts s' = contexts s
    /\ jarrays s' = jarrays s
    /\ pinned s' = pinned s
    /\ calls s' = calls s ++ [CallInit path]
    /\ logcat s'
       = logcat s
         ++ [debug_line "Initializing whisper with model: %s" [ArgStr path];
             error_line "Failed to initialize whisper context" []].
Proof.
  intros Hchars Hload. unfold initWhisper, GetStringUTFChars. rewrite Hchars.
  cbv [bind modify ret LOGD LOGE whisper_init_from_file_with_params
       ReleaseStringUTFChars]. state_simpl. rewrite Hload.
  eexists. split; [reflexivity|]. cbn. rewrite <- app_assoc. auto 10.
Qed.

(** The model loads at address [addr]. *)
Lemma init_loaded (s : State W) (path : jstring) (addr : positive)
    (c : whisper_context W) :
  string_chars_obtainable env path = true ->
  load_model W (contexts s) path (whisper_context_default_params W)
  = Some (addr, c) ->
  exists s' : State W,
    initWhisper W env path s = Returns (Z.pos addr) s'
    /\ contexts s' = <[Z.pos addr := c]> (contexts s)
    /\ jarrays s' = jarrays s
    /\ pinned s' = pinned s
    /\ calls s' = calls s ++ [CallInit path]
    /\ logcat s'
       = logcat s
         ++ [debug_line "Initializing whisper with model: %s" [ArgStr path];
             debug_line "Whisper context initialized successfully" []].
Proof.
  intros Hchars Hload. unfold initWhisper, GetStringUTFChars. rewrite Hchars.
  cbv [bind modify ret LOGD LOGE whisper_init_from_file_with_params
       ReleaseStringUTFChars]. state_simpl. rewrite Hload.
  eexists. split; [reflexivity|]. cbn. rewrite <- app_assoc. auto 10.
Qed.

(** A live non-zero handle is released. *)
Lemma free_live (s : State W) (h : jlong) (c : whisper_context W) :
  h <> 0 ->
  contexts s !! h = Some c ->
  freeWhisper W h s
  = Returns tt
      (add_call W (CallFree h)
         (set_contexts W (delete h)
            (add_log W (debug_line "Freeing whisper context" []) s))).
Proof.
  intros Hh Hc. unfold freeWhisper, ptr_of_jlong, nullptr.
  destruct (Z.eqb_spec h 0) as [|_]; [contradiction|].
  cbn [negb]. unfold bind, LOGD, modify, whisper_free. state_simpl.
  now rewrite Hc.
Qed.

(** A non-zero handle whose context is not live reaches [whisper_free]. *)
Lemma free_dangling (s : State W) (h : jlong) :
  h <> 0 ->
  contexts s !! h = None ->
  freeWhisper W h s = Undefined.
Proof.
  intros Hh Hc. unfold freeWhisper, ptr_of_jlong, nullptr.
  destruct (Z.eqb_spec h 0) as [|_]; [contradiction|].
  cbn [negb]. unfold bind, LOGD, modify, whisper_free. state_simpl.
  now rewrite Hc.
Qed.

(** The engine is reached: as [transcribe_run], with the lines logged. *)
Lemma transcribe_run_log (s : State W) (h : jlong) (a : jfloatArray) (rate : jint)
    (elems : list jfloat) (c c' : whisper_context W) (status : Z) :
  h <> 0 ->
  contexts s !! h = Some c ->
  jarrays s !! a = Some elems ->
  float_elements_obtainable env a elems = true ->
  run_full W c (wparams W) elems (Z.of_nat (length elems)) = (status, c') ->
  exists s' : State W,
    transcribeAudio W env h a rate s
    = Returns (if status =? 0 then Some (join_segments (segments_of W c')) else None) s'
    /\ logcat s'
       = logcat s
         ++ engine_path_log (Z.of_nat (length elems)) rate status
              (n_segments_of W c') (join_segments (segments_of W c')).
Proof.
  intros Hh Hc Ha Hok Hrun. unfold transcribeAudio, ptr_of_jlong, nullptr.
  destruct (Z.eqb_spec h 0) as [|_]; [contradiction|].
  unfold bind at 1. unfold GetFloatArrayElements. rewrite Ha, Hok.
  unfold bind at 1. unfold GetArrayLength. state_simpl. rewrite Ha.
  unfold bind at 1. unfold LOGD at 1, modify.
  unfold bind at 1. unfold whisper_full. state_simpl. rewrite Hc, Hrun.
  unfold bind at 1. unfold ReleaseFloatArrayElements.
  state_simpl. rewrite Ha.
  change (JNI_ABORT =? JNI_ABORT) with true. cbn iota.
  unfold engine_path_log.
  destruct (Z.eqb_spec status 0) as [->|Hst]; cbn [negb].
  - unfold bind at 1. unfold whisper_full_n_segments.
    state_simpl. rewrite lookup_insert_eq.
    unfold bind at 1. unfold LOGD at 1, modify.
    destruct (Z.eqb_spec (n_segments_of W c') 0) as [Hn|Hn].
    + rewrite (segments_of_no_segments W c' Hn).
      eexists. split; [reflexivity|]. cbn. now rewrite <- !app_assoc.
    + unfold bind at 1. rewrite (concat_segments_all W _ h c').
      * eexists. split; [reflexivity|]. cbn. now rewrite <- !app_assoc.
      * cbn. apply lookup_insert_eq.
  - eexists. split; [reflexivity|]. cbn. now rewrite <- !app_assoc.
Qed.

(** What a [transcribeAudio] call returns is settled by the context at the
    handle and the array at the reference. *)
Lemma transcribe_returned_local (s1 s2 : State W) (h : jlong) (a : jfloatArray)
    (rate1 rate2 : jint) :
  contexts s1 !! h = contexts s2 !! h ->
  jarrays s1 !! a = jarrays s2 !! a ->
  returned (transcribeAudio W env h a rate1 s1)
  = returned (transcribeAudio W env h a rate2 s2).
Proof.
  intros Hctx Harr.
  destruct (Z.eq_dec h 0) as [->|Hh].
  { now rewrite !transcribe_null_handle. }
  destruct (jarrays s1 !! a) as [elems|] eqn:Ha1; symmetry in Harr.
  2:{ now rewrite !transcribe_bad_array. }
  destruct (float_elements_obtainable env a elems) eqn:Hok.
  2:{ now rewrite !(transcribe_no_elements W env _ h a _ elems). }
  destruct (contexts s1 !! h) as [c|] eqn:Hc1; symmetry in Hctx.
  2:{ now rewrite !(transcribe_dangling W env _ h a _ elems). }
  destruct (run_full W c (wparams W) elems (Z.of_nat (length elems)))
    as [status c'] eqn:Hrun.
  destruct (transcribe_run W env s1 h a rate1 elems c c' status) as (t1 & -> & _);
    try assumption.
  destruct (transcribe_run W env s2 h a rate2 elems c c' status) as (t2 & -> & _);
    try assumption.
  reflexivity.
Qed.

End Lifecycle.

(** ** Composing the entry points *)

(** X1: loading a model at a fresh address and then releasing the handle
    brings back the contexts, the arrays and the buffer count the caller
    started with; the engine has seen one load and one free. *)
Theorem X1_init_then_free_restores
    (W : Whisper) (env : JNIEnv) (s : State W) (path : jstring)
    (addr : positive) (c : whisper_context W) :
  string_chars_obtainable env path = true ->
  load_model W (contexts s) path (whisper_context_default_params W)
  = Some (addr, c) ->
  contexts s !! Z.pos addr = None ->
  exists s1 s2 : State W,
    initWhisper W env path s = Returns (Z.pos addr) s1
    /\ freeWhisper W (Z.pos addr) s1 = Returns tt s2
    /\ contexts s2 = contexts s
    /\ jarrays s2 = jarrays s
    /\ pinned s2 = pinned s
    /\ calls s2 = calls s ++ [CallInit path; CallFree (Z.pos addr)].
Proof.
  intros Hchars Hload Hfresh.
  destruct (init_loaded W env s path addr c Hchars Hload)
    as (s1 & Hs1 & Hctx & Harr & Hpin & Hcalls & _).
  exists s1. eexists. split; [exact Hs1|].
  split; [apply (free_live W s1 (Z.pos addr) c); [lia|]|].
  { rewrite Hctx. apply lookup_insert_eq. }
  cbn. rewrite Hctx, Hcalls.
  repeat split; try assumption.
  - rewrite delete_insert_eq. now apply delete_id.
  - now rewrite <- app_assoc.
Qed.

Lemma X1_init_then_free_restores_witness :
  exists s1 s2 : State (scripted 0 []),
    initWhisper (scripted 0 []) willing_env "/models/ggml-tiny.bin"
      (fresh_world 0 []) = Returns 4096 s1
    /\ freeWhisper (scripted 0 []) 4096 s1 = Returns tt s2
    /\ contexts s2 = contexts (fresh_world 0 [])
    /\ jarrays s2 = jarrays (fresh_world 0 [])
    /\ pinned s2 = pinned (fresh_world 0 [])
    /\ calls s2
       = calls (fresh_world 0 [])
         ++ [CallInit "/models/ggml-tiny.bin"; CallFree 4096].
Proof.
  apply (X1_init_then_free_restores (scripted 0 []) willing_env (fresh_world 0 [])
           "/models/ggml-tiny.bin" 4096%positive []); reflexivity.
Defined.

(** X2: [freeWhisper] keeps no record of what it released.  After the
    release of a live handle, a second release of the same handle reaches
    [whisper_free] on a freed context, and a [transcribeAudio] call whose
    array elements are obtained reaches [whisper_full] on it: both are
    undefined. *)
Theorem X2_released_handle_dangles
    (W : Whisper) (env : JNIEnv) (s : State W) (h : jlong)
    (c : whisper_context W) :
  h <> 0 ->
  contexts s !! h = Some c ->
  exists s' : State W,
    freeWhisper W h s = Returns tt s'
    /\ freeWhisper W h s' = Undefined
    /\ forall (a : jfloatArray) (rate : jint) (elems : list jfloat),
         jarrays s !! a = Some elems ->
         float_elements_obtainable env a elems = true ->
         transcribeAudio W env h a rate s' = Undefined.
Proof.
  intros Hh Hc. eexists. split; [apply (free_live W s h c Hh Hc)|].
  split.
  - apply free_dangling; [assumption|]. cbn. apply lookup_delete_eq.
  - intros a rate elems Ha Hok.
    apply (transcribe_dangling W env _ h a rate elems); try assumption.
    cbn. apply lookup_delete_eq.
Qed.

Lemma X2_released_handle_dangles_witness :
  exists s' : State (scripted 0 []),
    freeWhisper (scripted 0 []) 4096 (small_world 0 []) = Returns tt s'
    /\ freeWhisper (scripted 0 []) 4096 s' = Undefined
    /\ forall (a : jfloatArray) (rate : jint) (elems : list jfloat),
         jarrays (small_world 0 []) !! a = Some elems ->
         float_elements_obtainable willing_env a elems = true ->
         transcribeAudio (scripted 0 []) willing_env 4096 a rate s' = Undefined.
Proof.
  apply (X2_released_handle_dangles (scripted 0 []) willing_env
           (small_world 0 []) 4096 []); solve [reflexivity | lia].
Defined.

(** X3: the handle [initWhisper] hands out is usable at once: a
    [transcribeAudio] call on it runs the engine on the context that was just
    loaded, and returns the join of the segments for status zero and the
    absent result otherwise. *)
Theorem X3_init_then_transcribe
    (W : Whisper) (env : JNIEnv) (s : State W) (path : jstring)
    (addr : positive) (c c' : whisper_context W) (a : jfloatArray)
    (rate : jint) (elems : list jfloat) (status : Z) :
  string_chars_obtainable env path = true ->
  load_model W (contexts s) path (whisper_context_default_params W)
  = Some (addr, c) ->
  jarrays s !! a = Some elems ->
  float_elements_obtainable env a elems = true ->
  run_full W c (wparams W) elems (Z.of_nat (length elems)) = (status, c') ->
  exists (h : jlong) (s1 s2 : State W),
    initWhisper W env path s = Returns h s1
    /\ h <> 0
    /\ transcribeAudio W env h a rate s1
       = Returns (if status =? 0
                  then Some (join_segments (segments_of W c'))
                  else None) s2
    /\ calls s2
       = calls s ++ [CallInit path;
                     CallFull h (wparams W) elems (Z.of_nat (length elems))].
Proof.
  intros Hchars Hload Ha Hok Hrun.
  destruct (init_loaded W env s path addr c Hchars Hload)
    as (s1 & Hs1 & Hctx & Harr & _ & Hcalls & _).
  assert (Hh : Z.pos addr <> 0) by lia.
  assert (Hlive : contexts s1 !! Z.pos addr = Some c)
    by (rewrite Hctx; apply lookup_insert_eq).
  rewrite <- Harr in Ha.
  destruct (transcribe_run W env s1 (Z.pos addr) a rate elems c c' status
              Hh Hlive Ha Hok Hrun) as (s2 & Hs2 & _ & _ & _ & Hcalls2).
  exists (Z.pos addr), s1, s2. repeat split; try assumption.
  rewrite Hcalls2, Hcalls. now rewrite <- app_assoc.
Qed.

Lemma X3_init_then_transcribe_witness :
  exists (h : jlong) (s1 s2 : State (scripted 0 [Some "hi"; Some "there"])),
    initWhisper (scripted 0 [Some "hi"; Some "there"]) willing_env "/m.bin"
      (fresh_world 0 [Some "hi"; Some "there"]) = Returns h s1
    /\ h <> 0
    /\ transcribeAudio (scripted 0 [Some "hi"; Some "there"]) willing_env h 7
         16000 s1
       = Returns (Some "hi there") s2
    /\ calls s2
       = calls (fresh_world 0 [Some "hi"; Some "there"])
         ++ [CallInit "/m.bin";
             CallFull h (wparams (scripted 0 [Some "hi"; Some "there"]))
               [0; 1065353216; 0] 3].
Proof.
  apply (X3_init_then_transcribe (scripted 0 [Some "hi"; Some "there"])
           willing_env (fresh_world 0 [Some "hi"; Some "there"]) "/m.bin"
           4096%positive [] [Some "hi"; Some "there"] 7 16000
           [0; 1065353216; 0] 0); reflexivity.
Defined.

(** ** What [transcribeAudio] leaves alone *)

Section Frame.

Context (W : Whisper) (env : JNIEnv).

(** Everything a returning [transcribeAudio] call keeps. *)
Lemma transcribe_frame (s s' : State W) (h : jlong) (a : jfloatArray)
    (rate : jint) (r : option jstring) :
  transcribeAudio W env h a rate s = Returns r s' ->
  jarrays s' = jarrays s
  /\ pinned s' = pinned s
  /\ dom (contexts s') = dom (contexts s)
  /\ (forall k : Z, k <> h -> contexts s' !! k = contexts s !! k)
  /\ exists new : list whisper_call,
       calls s' = calls s ++ new
       /\ forallb is_full_call new = true
       /\ (length new <= 1)%nat.
Proof.
  intros Hrun.
  destruct (transcribe_cases W env s h a rate)
    as [[_ H]|[[_ H]|[[_ (elems & _ & _ & H)]
       |[_ (elems & c & c' & status & _ & _ & Hc & _ & s2 & H
            & Hctx & Harr & Hpin & Hcalls)]]]];
    rewrite H in Hrun; try discriminate; injection Hrun as <- <-.
  - cbn. repeat split; auto. exists []. rewrite app_nil_r.
    repeat split. cbn. lia.
  - cbn. repeat split; auto. exists []. rewrite app_nil_r.
    repeat split. cbn. lia.
  - repeat split; try assumption.
    + rewrite Hctx. apply dom_insert_lookup_L. eauto.
    + intros k Hk. rewrite Hctx. now apply lookup_insert_ne.
    + eexists. split; [exact Hcalls|]. split; [reflexivity | cbn; lia].
Qed.

(** A returning [freeWhisper] call touches no context but the one named. *)
Lemma free_frame (s s' : State W) (h : jlong) :
  freeWhisper W h s = Returns tt s' ->
  jarrays s' = jarrays s
  /\ forall k : Z, k <> h -> contexts s' !! k = contexts s !! k.
Proof.
  intros Hrun. destruct (Z.eq_dec h 0) as [->|Hh].
  { injection Hrun as <-. auto. }
  destruct (contexts s !! h) as [c|] eqn:Hc.
  - rewrite (free_live W s h c Hh Hc) in Hrun. injection Hrun as <-.
    cbn. split; [reflexivity|]. intros k Hk. now apply lookup_delete_ne.
  - now rewrite (free_dangling W s h Hh Hc) in Hrun.
Qed.

End Frame.

(** X4: a returning [transcribeAudio] call neither allocates nor frees: the
    same contexts are live afterwards, every context other than the one at
    the handle is as it was, and the engine has seen at most one new call, a
    [whisper_full]. *)
Theorem X4_transcribe_keeps_contexts
    (W : Whisper) (env : JNIEnv) (s s' : State W) (h : jlong)
    (a : jfloatArray) (rate : jint) (r : option jstring) :
  transcribeAudio W env h a rate s = Returns r s' ->
  dom (contexts s') = dom (contexts s)
  /\ (forall k : Z, k <> h -> contexts s' !! k = contexts s !! k)
  /\ exists new : list whisper_call,
       calls s' = calls s ++ new
       /\ forallb is_full_call new = true
       /\ (length new <= 1)%nat.
Proof.
  intros Hrun.
  destruct (transcribe_frame W env s s' h a rate r Hrun)
    as (_ & _ & Hdom & Hothers & Hcalls).
  auto.
Qed.

Lemma X4_transcribe_keeps_contexts_witness :
  exists (r : option jstring) (s' : State (scripted 0 [Some "new"])),
    transcribeAudio (scripted 0 [Some "new"]) willing_env 4096 7 16000
      (wide_world 0 [Some "new"]) = Returns r s'
    /\ contexts s' !! 8192 = Some [Some "old"].
Proof.
  eexists _, _. split; [reflexivity|].
  refine (proj1 (proj2 (X4_transcribe_keeps_contexts (scripted 0 [Some "new"])
    willing_env (wide_world 0 [Some "new"]) _ 4096 7 16000 _ _)) 8192 _).
  - reflexivity.
  - lia.
Defined.

(** X5: on every return path of [transcribeAudio], the error return after a
    failed inference included, the native element buffer has been given
    back: as many buffers are outstanding after the call as before. *)
Theorem X5_transcribe_releases_buffer
    (W : Whisper) (env : JNIEnv) (s s' : State W) (h : jlong)
    (a : jfloatArray) (rate : jint) (r : option jstring) :
  transcribeAudio W env h a rate s = Returns r s' ->
  pinned s' = pinned s.
Proof.
  intros Hrun.
  now destruct (transcribe_frame W env s s' h a rate r Hrun) as (_ & Hpin & _).
Qed.

Lemma X5_transcribe_releases_buffer_witness :
  exists (s' : State (scripted (-7) [])),
    transcribeAudio (scripted (-7) []) willing_env 4096 7 16000
      (small_world (-7) []) = Returns None s'
    /\ pinned s' = 0%nat.
Proof.
  eexists. split; [reflexivity|].
  refine (X5_transcribe_releases_buffer (scripted (-7) []) willing_env
            (small_world (-7) []) _ 4096 7 16000 None _).
  reflexivity.
Defined.

(** X6: the sample rate only shows in the log.  Two calls that differ in the
    sample rate alone return the same value and leave the same contexts,
    arrays, buffer count and engine calls; in particular the engine is never
    told the rate. *)
Theorem X6_sample_rate_only_logged
    (W : Whisper) (env : JNIEnv) (s : State W) (h : jlong) (a : jfloatArray)
    (rate1 rate2 : jint) :
  without_log (transcribeAudio W env h a rate1 s)
  = without_log (transcribeAudio W env h a rate2 s).
Proof.
  destruct (transcribe_cases W env s h a rate1)
    as [[Hh H1]|[[Hh H1]|[[Hh (elems & Ha & Hok & H1)]
       |[Hh (elems & c & c' & status & Ha & Hok & Hc & Hrun & s1 & H1
             & Hctx1 & Harr1 & Hpin1 & Hcalls1)]]]].
  - subst h. now rewrite !transcribe_null_handle.
  - destruct (transcribe_cases W env s h a rate2)
      as [[Hh2 _]|[[_ H2]|[[_ (elems & Ha & Hok & H2)]
         |[_ (elems & c & c' & status & Ha & Hok & Hc & Hrun & s2 & H2 & _)]]]].
    + contradiction.
    + now rewrite H1, H2.
    + rewrite (transcribe_no_elements W env s h a rate1 elems) in H1
        by assumption. discriminate.
    + destruct (transcribe_run W env s h a rate1 elems c c' status)
        as (t & Ht & _); try assumption.
      rewrite Ht in H1. discriminate.
  - rewrite H1, (transcribe_no_elements W env s h a rate2 elems) by assumption.
    reflexivity.
  - destruct (transcribe_run W env s h a rate2 elems c c' status)
      as (s2 & H2 & Hctx2 & Harr2 & Hpin2 & Hcalls2); try assumption.
    rewrite H1, H2. cbn.
    now rewrite Hctx1, Hctx2, Harr1, Harr2, Hpin1, Hpin2, Hcalls1, Hcalls2.
Qed.

(** X7: handles are independent.  Releasing one handle, or transcribing on
    it, does not change what a later [transcribeAudio] call on a different
    handle returns. *)
Theorem X7_other_handle_unaffected
    (W : Whisper) (env : JNIEnv) (s : State W) (h1 h2 : jlong)
    (a : jfloatArray) (rate : jint) :
  h1 <> h2 ->
  (forall s' : State W,
      freeWhisper W h1 s = Returns tt s' ->
      returned (transcribeAudio W env h2 a rate s')
      = returned (transcribeAudio W env h2 a rate s))
  /\ (forall (a1 : jfloatArray) (rate1 : jint) (r1 : option jstring)
             (s' : State W),
        transcribeAudio W env h1 a1 rate1 s = Returns r1 s' ->
        returned (transcribeAudio W env h2 a rate s')
        = returned (transcribeAudio W env h2 a rate s)).
Proof.
  intros Hne. split.
  - intros s' Hfree.
    destruct (free_frame W s s' h1 Hfree) as (Harr & Hothers).
    apply transcribe_returned_local.
    + apply Hothers. congruence.
    + now rewrite Harr.
  - intros a1 rate1 r1 s' Hrun.
    destruct (transcribe_frame W env s s' h1 a1 rate1 r1 Hrun)
      as (Harr & _ & _ & Hothers & _).
    apply transcribe_returned_local.
    + apply Hothers. congruence.
    + now rewrite Harr.
Qed.

Lemma X7_other_handle_unaffected_witness :
  exists s' : State (scripted 0 [Some "fresh"]),
    freeWhisper (scripted 0 [Some "fresh"]) 4096 (wide_world 0 [Some "fresh"])
    = Returns tt s'
    /\ returned (transcribeAudio (scripted 0 [Some "fresh"]) willing_env 8192 7
                   16000 s')
       = Some (Some "fresh").
Proof.
  eexists. split; [reflexivity|].
  refine (eq_trans
    (proj1 (X7_other_handle_unaffected (scripted 0 [Some "fresh"]) willing_env
              (wide_world 0 [Some "fresh"]) 4096 8192 7 16000 _) _ _) _).
  - lia.
  - reflexivity.
  - reflexivity.
Defined.

(** ** The log *)

Lemma errors_in_engine_path_log (n_samples rate status n_segments : Z)
    (text : string) :
  errors_in (engine_path_log n_samples rate status n_segments text)
  = if status =? 0 then 0%nat else 1%nat.
Proof.
  unfold engine_path_log, errors_in.
  destruct (status =? 0); [|reflexivity].
  destruct (n_segments =? 0); reflexivity.
Qed.

(** X8: [transcribeAudio] only appends to the log, and what it appends
    holds exactly one error line when the result is absent and none when the
    result is a string: every failure is logged, every success is free of
    error lines. *)
Theorem X8_transcribe_failure_logged
    (W : Whisper) (env : JNIEnv) (s s' : State W) (h : jlong)
    (a : jfloatArray) (rate : jint) (r : option jstring) :
  transcribeAudio W env h a rate s = Returns r s' ->
  exists new : list log_entry,
    logcat s' = logcat s ++ new
    /\ errors_in new = match r with
                       | Some _ => 0%nat
                       | None => 1%nat
                       end.
Proof.
  intros Hrun.
  destruct (transcribe_cases W env s h a rate)
    as [[_ H]|[[_ H]|[[_ (elems & _ & _ & H)]
       |[Hh (elems & c & c' & status & Ha & Hok & Hc & Hfull & _)]]]].
  - rewrite H in Hrun. injection Hrun as <- <-. eexists. split; reflexivity.
  - rewrite H in Hrun. discriminate.
  - rewrite H in Hrun. injection Hrun as <- <-. eexists. split; reflexivity.
  - destruct (transcribe_run_log W env s h a rate elems c c' status
                Hh Hc Ha Hok Hfull) as (s2 & H & Hlog).
    rewrite H in Hrun. injection Hrun as <- <-.
    eexists. split; [exact Hlog|].
    rewrite errors_in_engine_path_log. now destruct (status =? 0).
Qed.

Lemma X8_transcribe_failure_logged_witness :
  exists (s' : State (scripted 5 [])) (new : list log_entry),
    transcribeAudio (scripted 5 []) willing_env 4096 7 16000 (small_world 5 [])
    = Returns None s'
    /\ logcat s' = logcat (small_world 5 []) ++ new
    /\ errors_in new = 1%nat.
Proof.
  eexists.
  destruct (X8_transcribe_failure_logged (scripted 5 []) willing_env
              (small_world 5 []) _ 4096 7 16000 None eq_refl)
    as (new & Hlog & Herr).
  exists new. split; [reflexivity|]. split; [exact Hlog | exact Herr].
Defined.

(** X9: the last line a [transcribeAudio] call logs after the engine ran
    carries the outcome itself: the engine's status code when the status is
    non-zero, and the whole transcript, the very string returned, when the
    status is zero and there are segments. *)
Theorem X9_outcome_written_to_log
    (W : Whisper) (env : JNIEnv) (s : State W) (h : jlong) (a : jfloatArray)
    (rate : jint) (elems : list jfloat) (c c' : whisper_context W) (status : Z) :
  h <> 0 ->
  contexts s !! h = Some c ->
  jarrays s !! a = Some elems ->
  float_elements_obtainable env a elems = true ->
  run_full W c (wparams W) elems (Z.of_nat (length elems)) = (status, c') ->
  exists (r : option jstring) (s' : State W),
    transcribeAudio W env h a rate s = Returns r s'
    /\ (status <> 0 ->
        r = None
        /\ last (logcat s')
           = Some (error_line "Whisper inference failed with code: %d"
                              [ArgInt status]))
    /\ (status = 0 -> n_segments_of W c' <> 0 ->
        exists text : string,
          r = Some text
          /\ last (logcat s')
             = Some (debug_line "Final transcription: %s" [ArgStr text])).
Proof.
  intros Hh Hc Ha Hok Hfull.
  destruct (transcribe_run_log W env s h a rate elems c c' status
              Hh Hc Ha Hok Hfull) as (s' & H & Hlog).
  eexists _, s'. split; [exact H|]. unfold engine_path_log in Hlog. split.
  - intros Hst. apply Z.eqb_neq in Hst. rewrite Hst in Hlog |- *.
    split; [reflexivity|]. rewrite Hlog, last_app. reflexivity.
  - intros -> Hn. apply Z.eqb_neq in Hn. rewrite Hn in Hlog.
    cbn [Z.eqb] in Hlog |- *. eexists. split; [reflexivity|].
    rewrite Hlog, last_app. reflexivity.
Qed.

Lemma X9_outcome_written_to_log_witness :
  exists (r : option jstring) (s' : State (scripted 0 [Some "call"; Some "me"])),
    transcribeAudio (scripted 0 [Some "call"; Some "me"]) willing_env 4096 7
      16000 (small_world 0 [Some "call"; Some "me"]) = Returns r s'
    /\ (0 <> 0 ->
        r = None
        /\ last (logcat s')
           = Some (error_line "Whisper inference failed with code: %d"
                              [ArgInt 0]))
    /\ (0 = 0 -> 2 <> 0 ->
        exists text : string,
          r = Some text
          /\ last (logcat s')
             = Some (debug_line "Final transcription: %s" [ArgStr text])).
Proof.
  apply (X9_outcome_written_to_log (scripted 0 [Some "call"; Some "me"])
           willing_env (small_world 0 [Some "call"; Some "me"]) 4096 7 16000
           [0; 1065353216; 0] [] [Some "call"; Some "me"] 0);
    solve [reflexivity | lia].
Defined.

(** X10: [initWhisper] validates nothing about the path: whenever its
    characters can be obtained the engine is asked, once, to load exactly
    that path, the empty path included, and otherwise the engine is not
    called at all.  Contexts other than the one returned are untouched, and
    the appended log lines hold one error line when the handle is zero and
    none when it is not. *)
Theorem X10_init_engine_calls_and_log
    (W : Whisper) (env : JNIEnv) (s : State W) (path : jstring) :
  exists (h : jlong) (s' : State W) (new : list log_entry),
    initWhisper W env path s = Returns h s'
    /\ calls s'
       = calls s ++ (if string_chars_obtainable env path
                     then [CallInit path] else [])
    /\ (forall k : Z, k <> h -> contexts s' !! k = contexts s !! k)
    /\ logcat s' = logcat s ++ new
    /\ errors_in new = if h =? 0 then 1%nat else 0%nat.
Proof.
  destruct (string_chars_obtainable env path) eqn:Hchars.
  - destruct (load_model W (contexts s) path (whisper_context_default_params W))
      as [[addr c]|] eqn:Hload.
    + destruct (init_loaded W env s path addr c Hchars Hload)
        as (s' & H & Hctx & _ & _ & Hcalls & Hlog).
      eexists _, s', _. split; [exact H|]. split; [exact Hcalls|].
      split; [|split; [exact Hlog | reflexivity]].
      intros k Hk. rewrite Hctx. now apply lookup_insert_ne.
    + destruct (init_load_failed W env s path Hchars Hload)
        as (s' & H & Hctx & _ & _ & Hcalls & Hlog).
      eexists _, s', _. split; [exact H|]. split; [exact Hcalls|].
      split; [|split; [exact Hlog | reflexivity]].
      intros k _. now rewrite Hctx.
  - eexists _, _, _. split; [now apply init_no_chars|]. cbn.
    rewrite app_nil_r. repeat split.
Qed.

(** ** Calls in a row, and the edges of the segment loop *)

(** X11: two [transcribeAudio] calls in a row on one handle both reach the
    engine; the second runs on the context the first run left behind, and
    its result is built from the segments of the second run alone: the
    bridge carries no text over from call to call. *)
Theorem X11_transcribe_twice
    (W : Whisper) (env : JNIEnv) (s : State W) (h : jlong) (a : jfloatArray)
    (rate1 rate2 : jint) (elems : list jfloat) (c c1 c2 : whisper_context W)
    (status1 status2 : Z) :
  h <> 0 ->
  contexts s !! h = Some c ->
  jarrays s !! a = Some elems ->
  float_elements_obtainable env a elems = true ->
  run_full W c (wparams W) elems (Z.of_nat (length elems)) = (status1, c1) ->
  run_full W c1 (wparams W) elems (Z.of_nat (length elems)) = (status2, c2) ->
  exists (r1 : option jstring) (s1 s2 : State W),
    transcribeAudio W env h a rate1 s = Returns r1 s1
    /\ transcribeAudio W env h a rate2 s1
       = Returns (if status2 =? 0
                  then Some (join_segments (segments_of W c2))
                  else None) s2
    /\ contexts s2 !! h = Some c2
    /\ calls s2
       = calls s ++ [CallFull h (wparams W) elems (Z.of_nat (length elems));
                     CallFull h (wparams W) elems (Z.of_nat (length elems))].
Proof.
  intros Hh Hc Ha Hok Hrun1 Hrun2.
  destruct (transcribe_run W env s h a rate1 elems c c1 status1
              Hh Hc Ha Hok Hrun1) as (s1 & H1 & Hctx1 & Harr1 & _ & Hcalls1).
  assert (Hc1 : contexts s1 !! h = Some c1)
    by (rewrite Hctx1; apply lookup_insert_eq).
  rewrite <- Harr1 in Ha.
  destruct (transcribe_run W env s1 h a rate2 elems c1 c2 status2
              Hh Hc1 Ha Hok Hrun2) as (s2 & H2 & Hctx2 & _ & _ & Hcalls2).
  eexists _, s1, s2. split; [exact H1|]. split; [exact H2|]. split.
  - rewrite Hctx2. apply lookup_insert_eq.
  - rewrite Hcalls2, Hcalls1. now rewrite <- app_assoc.
Qed.

Lemma X11_transcribe_twice_witness :
  exists (r1 : option jstring) (s1 s2 : State (scripted 0 [Some "again"])),
    transcribeAudio (scripted 0 [Some "again"]) willing_env 4096 7 16000
      (small_world 0 [Some "again"]) = Returns r1 s1
    /\ transcribeAudio (scripted 0 [Some "again"]) willing_env 4096 7 8000 s1
       = Returns (Some "again") s2
    /\ contexts s2 !! 4096 = Some [Some "again"]
    /\ calls s2
       = calls (small_world 0 [Some "again"])
         ++ [CallFull 4096 (wparams (scripted 0 [Some "again"]))
               [0; 1065353216; 0] 3;
             CallFull 4096 (wparams (scripted 0 [Some "again"]))
               [0; 1065353216; 0] 3].
Proof.
  apply (X11_transcribe_twice (scripted 0 [Some "again"]) willing_env
           (small_world 0 [Some "again"]) 4096 7 16000 8000 [0; 1065353216; 0]
           [] [Some "again"] [Some "again"] 0 0);
    solve [reflexivity | lia].
Defined.

(** X12: a negative segment count is not an error for the bridge: the loop
    body never runs, no segment text is asked for, and the result is the
    empty string. *)
Theorem X12_negative_segment_count
    (W : Whisper) (env : JNIEnv) (s : State W) (h : jlong) (a : jfloatArray)
    (rate : jint) (elems : list jfloat) (c c' : whisper_context W) :
  h <> 0 ->
  contexts s !! h = Some c ->
  jarrays s !! a = Some elems ->
  float_elements_obtainable env a elems = true ->
  run_full W c (wparams W) elems (Z.of_nat (length elems)) = (0, c') ->
  n_segments_of W c' < 0 ->
  returned (transcribeAudio W env h a rate s) = Some (Some "").
Proof.
  intros Hh Hc Ha Hok Hrun Hn.
  destruct (transcribe_run W env s h a rate elems c c' 0 Hh Hc Ha Hok Hrun)
    as (s' & Hs' & _).
  rewrite Hs'. cbn. unfold segments_of.
  now replace (Z.to_nat (n_segments_of W c')) with 0%nat by lia.
Qed.

Lemma X12_negative_segment_count_witness :
  returned (transcribeAudio (miscounting (-2)) willing_env 4096 7 16000
              (miscounting_world (-2))) = Some (Some "").
Proof.
  apply (X12_negative_segment_count (miscounting (-2)) willing_env
           (miscounting_world (-2)) 4096 7 16000 [0; 1065353216; 0] [] []);
    solve [reflexivity | cbn; lia].
Defined.

Lemma join_from_S_retrievable (segs : list (option string)) (i : nat) :
  join_from (S i) segs
  = match retrievable_texts segs with
    | [] => ""
    | _ :: _ => " " +:+ String.concat " " (retrievable_texts segs)
    end.
Proof.
  revert i. induction segs as [|[text|] segs IH]; intros i.
  - reflexivity.
  - cbn [join_from separator retrievable_texts]. rewrite IH.
    destruct (retrievable_texts segs) as [|text' texts].
    + cbn [String.concat]. now rewrite append_nil_r.
    + reflexivity.
  - cbn [join_from retrievable_texts]. apply IH.
Qed.

Lemma join_segments_retrievable (segs : list (option string)) :
  join_segments segs
  = leading_space segs +:+ String.concat " " (retrievable_texts segs).
Proof.
  unfold join_segments, leading_space. destruct segs as [|[text|] segs].
  - reflexivity.
  - cbn [join_from separator retrievable_texts]. rewrite join_from_S_retrievable.
    destruct (retrievable_texts segs) as [|text' texts].
    + cbn [String.concat]. change ("" +:+ text +:+ "") with (text +:+ "").
      now rewrite append_nil_r.
    + reflexivity.
  - cbn [join_from retrievable_texts]. rewrite join_from_S_retrievable.
    destruct (retrievable_texts segs); reflexivity.
Qed.

(** X13: segments without text are skipped: the transcript is the texts of
    the segments that have one, in index order, joined by single spaces,
    with one space in front exactly when segment 0 has no text and some
    later segment has. *)
Theorem X13_transcript_of_retrievable_texts
    (W : Whisper) (env : JNIEnv) (s : State W) (h : jlong) (a : jfloatArray)
    (rate : jint) (elems : list jfloat) (c c' : whisper_context W)
    (segs : list (option string)) :
  h <> 0 ->
  contexts s !! h = Some c ->
  jarrays s !! a = Some elems ->
  float_elements_obtainable env a elems = true ->
  run_full W c (wparams W) elems (Z.of_nat (length elems)) = (0, c') ->
  segments_of W c' = segs ->
  returned (transcribeAudio W env h a rate s)
  = Some (Some (leading_space segs
                +:+ String.concat " " (retrievable_texts segs))).
Proof.
  intros Hh Hc Ha Hok Hrun <-.
  destruct (transcribe_run W env s h a rate elems c c' 0 Hh Hc Ha Hok Hrun)
    as (s' & Hs' & _).
  rewrite Hs'. cbn. now rewrite join_segments_retrievable.
Qed.

Lemma X13_transcript_of_retrievable_texts_witness :
  returned (transcribeAudio
              (scripted 0 [None; Some "to"; None; None; Some "be"; Some "or"])
              willing_env 4096 7 16000
              (small_world 0 [None; Some "to"; None; None; Some "be"; Some "or"]))
  = Some (Some " to be or").
Proof.
  apply (X13_transcript_of_retrievable_texts
           (scripted 0 [None; Some "to"; None; None; Some "be"; Some "or"])
           willing_env
           (small_world 0 [None; Some "to"; None; None; Some "be"; Some "or"])
           4096 7 16000 [0; 1065353216; 0] []
           [None; Some "to"; None; None; Some "be"; Some "or"]
           [None; Some "to"; None; None; Some "be"; Some "or"]);
    solve [reflexivity | lia].
Defined.

(** X14: an array without samples gets no special treatment: once its
    elements are obtained the engine runs, on no samples and with a sample
    count of zero, and its status alone decides between a string and the
    absent result. *)
Theorem X14_empty_audio_reaches_engine
    (W : Whisper) (env : JNIEnv) (s : State W) (h : jlong) (a : jfloatArray)
    (rate : jint) (c c' : whisper_context W) (status : Z) :
  h <> 0 ->
  contexts s !! h = Some c ->
  jarrays s !! a = Some [] ->
  float_elements_obtainable env a [] = true ->
  run_full W c (wparams W) [] 0 = (status, c') ->
  exists (r : option jstring) (s' : State W),
    transcribeAudio W env h a rate s = Returns r s'
    /\ (r = None <-> status <> 0)
    /\ calls s' = calls s ++ [CallFull h (wparams W) [] 0].
Proof.
  intros Hh Hc Ha Hok Hrun.
  destruct (transcribe_run W env s h a rate [] c c' status Hh Hc Ha Hok Hrun)
    as (s' & Hs' & _ & _ & _ & Hcalls).
  eexists _, s'. split; [exact Hs'|]. split; [|exact Hcalls].
  destruct (Z.eqb_spec status 0) as [->|Hst].
  - split; [discriminate | intros Hne; now contradiction Hne].
  - split; auto.
Qed.

Lemma X14_empty_audio_reaches_engine_witness :
  exists (r : option jstring) (s' : State (scripted 0 [])),
    transcribeAudio (scripted 0 []) willing_env 4096 9 16000 (wide_world 0 [])
    = Returns r s'
    /\ (r = None <-> 0 <> 0)
    /\ calls s'
       = calls (wide_world 0 [])
         ++ [CallFull 4096 (wparams (scripted 0 [])) [] 0].
Proof.
  apply (X14_empty_audio_reaches_engine (scripted 0 []) willing_env
           (wide_world 0 []) 4096 9 16000 [] []);
    solve [reflexivity | lia].
Defined.

(** ** A whole session on one handle *)

(** With a live handle and a valid array reference the call returns. *)
Lemma transcribe_defined (W : Whisper) (env : JNIEnv) (s : State W)
    (h : jlong) (a : jfloatArray) (rate : jint) :
  h <> 0 ->
  is_Some (contexts s !! h) ->
  is_Some (jarrays s !! a) ->
  exists (r : option jstring) (s' : State W),
    transcribeAudio W env h a rate s = Returns r s'.
Proof.
  intros Hh [c Hc] [elems Ha].
  destruct (float_elements_obtainable env a elems) eqn:Hok.
  - destruct (run_full W c (wparams W) elems (Z.of_nat (length elems)))
      as [status c'] eqn:Hrun.
    destruct (transcribe_run W env s h a rate elems c c' status
                Hh Hc Ha Hok Hrun) as (s' & Hs' & _).
    eauto.
  - rewrite (transcribe_no_elements W env s h a rate elems) by assumption.
    eauto.
Qed.

(** X15: any number of [transcribeAudio] calls on a live handle, each on a
    valid array reference, all return, one result per call, whatever the
    engine and the runtime answer.  Afterwards the arrays hold what they
    held, no native buffer is outstanding that was not before, the same
    contexts are live, the engine has been called at most once per request,
    and the handle can still be released. *)
Theorem X15_session_stays_defined
    (W : Whisper) (env : JNIEnv) (h : jlong)
    (requests : list (jfloatArray * jint)) (s : State W) :
  h <> 0 ->
  is_Some (contexts s !! h) ->
  (forall (a : jfloatArray) (rate : jint),
      (a, rate) ∈ requests -> is_Some (jarrays s !! a)) ->
  exists (rs : list (option jstring)) (s' : State W),
    transcribe_each W env h requests s = Returns rs s'
    /\ length rs = length requests
    /\ jarrays s' = jarrays s
    /\ pinned s' = pinned s
    /\ dom (contexts s') = dom (contexts s)
    /\ (length (calls s') <= length (calls s) + length requests)%nat
    /\ defined (freeWhisper W h s') = true.
Proof.
  intros Hh. revert s.
  induction requests as [|[a rate] requests IH]; intros s Hlive Hvalid.
  - exists [], s. cbn [transcribe_each]. unfold ret.
    repeat split; try (cbn; lia).
    destruct Hlive as [c Hc]. now rewrite (free_live W s h c Hh Hc).
  - destruct (transcribe_defined W env s h a rate Hh Hlive) as (r & s1 & H1).
    { apply (Hvalid a rate). apply list_elem_of_here. }
    destruct (transcribe_frame W env s s1 h a rate r H1)
      as (Harr & Hpin & Hdom & _ & new & Hcalls & _ & Hnew).
    assert (Hlive1 : is_Some (contexts s1 !! h)).
    { apply elem_of_dom. rewrite Hdom. now apply elem_of_dom. }
    destruct (IH s1 Hlive1) as (rs & s' & H2 & Hlen & Harr' & Hpin' & Hdom'
                                 & Hcalls' & Hfree).
    { intros a' rate' Hin. rewrite Harr. apply (Hvalid a' rate').
      now apply list_elem_of_further. }
    exists (r :: rs), s'. cbn [transcribe_each]. unfold bind at 1. rewrite H1.
    unfold bind at 1. rewrite H2. unfold ret.
    repeat split; try congruence.
    + cbn. lia.
    + rewrite Hcalls, length_app in Hcalls'. cbn [length]. lia.
Qed.

Lemma X15_session_stays_defined_witness :
  exists (rs : list (option jstring)) (s' : State (scripted 0 [Some "ok"])),
    transcribe_each (scripted 0 [Some "ok"]) willing_env 4096
      [(7, 16000); (9, 8000); (7, 44100)] (wide_world 0 [Some "ok"])
    = Returns rs s'
    /\ length rs = 3%nat
    /\ jarrays s' = jarrays (wide_world 0 [Some "ok"])
    /\ pinned s' = pinned (wide_world 0 [Some "ok"])
    /\ dom (contexts s') = dom (contexts (wide_world 0 [Some "ok"]))
    /\ (length (calls s') <= 0 + 3)%nat
    /\ defined (freeWhisper (scripted 0 [Some "ok"]) 4096 s') = true.
Proof.
  apply (X15_session_stays_defined (scripted 0 [Some "ok"]) willing_env 4096
           [(7, 16000); (9, 8000); (7, 44100)] (wide_world 0 [Some "ok"])).
  - lia.
  - eexists. reflexivity.
  - intros a rate Hin.
    repeat (apply elem_of_cons in Hin as [Hin|Hin];
            [injection Hin as -> ->; eexists; reflexivity|]).
    now apply elem_of_nil in Hin.
Defined.
